(** * aw-notify: the threshold-alert engine of [aw_notify/main.py]

    A shallow embedding of the TTL cache decorator [cache_ttl], of the
    aggregator [get_time], of [to_hms] and [notify], and of the class
    [CategoryAlert] with its methods, followed by the properties of
    the specification that concern them.

    Conventions.
    - A [timedelta] is its number of microseconds, a [Z] (it may be
      negative); a timezone-aware UTC [datetime] is its number of
      microseconds since 1970-01-01T00:00:00Z.  Python limits a
      datetime to the years 1 to 9999 and a timedelta to |days| < 10^9
      and raises OverflowError beyond.  The sum of [update],
      [last_check + time_to_threshold], is modelled with that
      exception: a threshold that an alert is made with can take it
      out of range.  Elsewhere results are taken to lie in range.
    - Code with effects is a function from the state to an outcome and
      the state after; an outcome is a value or a raised exception. *)

From Stdlib Require Import ZArith List Lia Bool.
From stdpp Require Import base list strings gmap sorting pretty.

Open Scope Z_scope.

(** ** Durations and instants *)

Definition timedelta := Z.
Definition datetime := Z.

Definition us_per_second : Z := 1000000.
Definition us_per_day : Z := 86400 * us_per_second.

Definition td_seconds (n : Z) : timedelta := n * us_per_second.
Definition td_minutes (n : Z) : timedelta := n * (60 * us_per_second).
Definition td_hours (n : Z) : timedelta := n * (3600 * us_per_second).
Definition td_days (n : Z) : timedelta := n * us_per_day.

(** [datetime(1970, 1, 1, tzinfo=timezone.utc)] *)
Definition epoch : datetime := 0.

(** [d.replace(hour=0, minute=0, second=0, microsecond=0)] on a UTC
    datetime: the midnight that starts the day of [d]. *)
Definition replace_midnight (d : datetime) : datetime := d - d mod us_per_day.

(** [timedelta.days] and [timedelta.seconds] of the normalised
    representation ([0 <= seconds < 86400]). *)
Definition td_days_of (d : timedelta) : Z := d / us_per_day.
Definition td_seconds_of (d : timedelta) : Z := (d mod us_per_day) / us_per_second.

(** [time_offset = timedelta(hours=4)] *)
Definition time_offset : timedelta := td_hours 4.

Definition td15min : timedelta := td_minutes 15.
Definition td30min : timedelta := td_minutes 30.
Definition td1h : timedelta := td_hours 1.
Definition td2h : timedelta := td_hours 2.
Definition td6h : timedelta := td_hours 6.
Definition td4h : timedelta := td_hours 4.
Definition td8h : timedelta := td_hours 8.

(** ** Exceptions and effects *)

Inductive exn : Type :=
| ValueError                 (* min() of an empty sequence *)
| KeyError (key : string)    (* a missing dictionary key *)
| TypeError                  (* subscripting None *)
| OverflowError              (* a date value out of range *)
| Upstream (msg : string).   (* whatever the wrapped operation or the client raises *)

Inductive result (A : Type) : Type :=
| Ok (a : A)
| Raise (e : exn).
Arguments Ok {A} a.
Arguments Raise {A} e.

Definition M (St A : Type) : Type := St -> result A * St.

Definition ret {St A} (a : A) : M St A := fun s => (Ok a, s).
Definition raise {St A} (e : exn) : M St A := fun s => (Raise e, s).

Definition bind {St A B} (m : M St A) (k : A -> M St B) : M St B :=
  fun s =>
    match m s with
    | (Ok a, s') => k a s'
    | (Raise e, s') => (Raise e, s')
    end.

(** [try: m except Exception as e: h e].  What [m] did to the state
    before it raised stays done. *)
Definition try_except {St A} (m : M St A) (h : exn -> M St A) : M St A :=
  fun s =>
    match m s with
    | (Ok a, s') => (Ok a, s')
    | (Raise e, s') => h e s'
    end.

Notation "x <- m ;; k" := (bind m (fun x => k))
  (at level 100, m at next level, right associativity).
Notation "m ;;; k" := (bind m (fun _ => k))
  (at level 100, right associativity).

(** ** The decorator [cache_ttl] *)

Module TTLCache.
Section cache_ttl.
Context {Args V St : Type}.

(** The time-to-live given to the decorator. *)
Variable ttl : timedelta.
(** The decorated function; [St] is whatever it reads and changes. *)
Variable func : Args -> M St V.

(** The two attributes kept on the wrapper function object. *)
Record attrs : Type := mk_attrs {
  last_update : datetime;
  cache : option V
}.

(** The attributes as the decorator sets them: the epoch and [None]. *)
Definition fresh : attrs := mk_attrs epoch None.

(** The body of the wrapper [_cache_ttl].  [now] is the value that
    [datetime.now(timezone.utc)] returned on its first line.  The
    timestamp is assigned before [func] is called, the value after it
    has returned. *)
Definition _cache_ttl (now : datetime) (args : Args)
  : M (attrs * St) (option V) :=
  fun '(c, s) =>
    if ttl <? now - last_update c then
      let c1 := mk_attrs now (cache c) in
      match func args s with
      | (Ok v, s') => let c2 := mk_attrs (last_update c1) (Some v) in
                      (Ok (cache c2), (c2, s'))
      | (Raise e, s') => (Raise e, (c1, s'))
      end
    else (Ok (cache c), (c, s)).

(** Successive calls of the wrapper, at the given readings of the
    clock; the outcomes are listed in call order. *)
Fixpoint calls (nows : list datetime) (args : Args) (st : attrs * St)
  : list (result (option V)) * (attrs * St) :=
  match nows with
  | [] => ([], st)
  | now :: rest =>
      let '(r, st1) := _cache_ttl now args st in
      let '(rs, st2) := calls rest args st1 in
      (r :: rs, st2)
  end.
End cache_ttl.

Arguments attrs V : clear implicits.
Arguments mk_attrs {V} _ _.
Arguments fresh {V}.

(** Call-count instrumentation: the counted function does what [func]
    does and adds one to a counter kept beside its state. *)
Definition counted {Args V St} (func : Args -> M St V) : Args -> M (nat * St) V :=
  fun args '(n, s) =>
    let '(r, s') := func args s in (r, (S n, s')).

End TTLCache.

(** ** Strings: [to_hms] *)

(** [str.lstrip()] and [str.strip()] with no argument.  The strings
    built by [to_hms] hold digits, a sign, the four unit letters and
    spaces only, so the ASCII whitespace test decides them. *)
Fixpoint lstrip (s : string) : string :=
  match s with
  | EmptyString => EmptyString
  | String c rest => if Ascii.is_space c then lstrip rest else s
  end.

Definition strip (s : string) : string :=
  String.rev (lstrip (String.rev (lstrip s))).

(** [to_hms(duration)] *)
Definition to_hms (duration : timedelta) : string :=
  let days := td_days_of duration in
  let hours := td_seconds_of duration / 3600 in
  let remainder := td_seconds_of duration mod 3600 in
  let minutes := remainder / 60 in
  let seconds := remainder mod 60 in
  let s := ""%string in
  let s := if 0 <? days then (s +:+ pretty days +:+ "d ")%string else s in
  let s := if 0 <? hours then (s +:+ pretty hours +:+ "h ")%string else s in
  let s := if 0 <? minutes then (s +:+ pretty minutes +:+ "m ")%string else s in
  let s := if (String.length s =? 0)%nat
           then (s +:+ pretty seconds +:+ "s ")%string else s in
  strip s.

(** ** The world around the alerts *)

(** What [get_time] returns: category path joined by [>] to duration. *)
Abbreviation dict := (gmap string timedelta).

(** The part of one query result that [get_time] reads: the total
    duration and the events merged by category, each a category path
    and a duration.  Durations are taken as already converted by
    [timedelta(seconds=...)]. *)
Record response : Type := mk_response {
  res_duration : timedelta;
  res_cat_events : list (list string * timedelta)
}.

(** A [logger.error] record of [update]: the category and the
    exception that the message interpolates. *)
Record error_record : Type := mk_error_record {
  err_category : string;
  err_exn : exn
}.

(** Everything outside the alert objects and the cache attributes.
    Debug and info log records are left out. *)
Record outside : Type := mk_outside {
  ticks : nat;                      (* readings of the clock taken so far *)
  queries : nat;                    (* runs of the body of get_time so far *)
  sent : list (string * string);    (* title and message of each notification, oldest first *)
  errors : list error_record        (* error log, oldest first *)
}.

Definition tick (o : outside) : outside :=
  mk_outside (S (ticks o)) (queries o) (sent o) (errors o).
Definition count_query (o : outside) : outside :=
  mk_outside (ticks o) (S (queries o)) (sent o) (errors o).
Definition push_sent (n : string * string) (o : outside) : outside :=
  mk_outside (ticks o) (queries o) (sent o ++ [n]) (errors o).
Definition push_error (e : error_record) (o : outside) : outside :=
  mk_outside (ticks o) (queries o) (sent o) (errors o ++ [e]).

(** The state of the process: the attributes of the decorated
    [get_time] and the rest. *)
Abbreviation World := (TTLCache.attrs dict * outside)%type.

(** The record of a [CategoryAlert] object. *)
Record CategoryAlert : Type := mk_alert {
  category : string;
  label : string;
  thresholds : list timedelta;
  max_triggered : timedelta;
  time_spent : timedelta;
  last_check : datetime
}.

Definition set_max_triggered (v : timedelta) (a : CategoryAlert) : CategoryAlert :=
  mk_alert (category a) (label a) (thresholds a) v (time_spent a) (last_check a).
Definition set_time_spent (v : timedelta) (a : CategoryAlert) : CategoryAlert :=
  mk_alert (category a) (label a) (thresholds a) (max_triggered a) v (last_check a).
Definition set_last_check (v : datetime) (a : CategoryAlert) : CategoryAlert :=
  mk_alert (category a) (label a) (thresholds a) (max_triggered a) (time_spent a) v.

(** Python's [x or y] on strings, [None] standing for an absent one. *)
Definition str_or (x : option string) (y : string) : string :=
  match x with
  | Some (String c r) => String c r
  | _ => y
  end.

(** [CategoryAlert.__init__] *)
Definition CategoryAlert_init (category : string) (thresholds : list timedelta)
  (label : option string) : CategoryAlert :=
  mk_alert category (str_or label (str_or (Some category) "All"))
    thresholds 0 0 epoch.

(** [datetime.min] and [datetime.max] as instants: the first
    microsecond of year 1 and the last one of year 9999. *)
Definition datetime_min : datetime := - td_days 719162.
Definition datetime_max : datetime := td_days 2932897 - 1.

(** [timedelta.min] and [timedelta.max]. *)
Definition timedelta_min : timedelta := - td_days 999999999.
Definition timedelta_max : timedelta := td_days 1000000000 - 1.

(** [d + t] on a datetime and a timedelta: OverflowError when the
    result is not a date of the years 1 to 9999. *)
Definition datetime_add (d : datetime) (t : timedelta) : result datetime :=
  if (datetime_min <=? d + t) && (d + t <=? datetime_max)
  then Ok (d + t)
  else Raise OverflowError.

(** [min(l)]: ValueError on an empty sequence. *)
Definition py_min (l : list timedelta) : result timedelta :=
  match l with
  | [] => Raise ValueError
  | x :: rest => Ok (fold_left Z.min rest x)
  end.

(** The order of a descending sort: [x] may stand before [y]. *)
Definition desc (x y : timedelta) : Prop := y <= x.

#[global] Instance desc_dec : RelDecision desc.
Proof. intros x y. unfold desc. apply Z_le_dec. Defined.

(** [sorted(l, reverse=True)] *)
Definition sorted_reverse (l : list timedelta) : list timedelta :=
  merge_sort desc l.

(** The property [thresholds_untriggered]. *)
Definition thresholds_untriggered (a : CategoryAlert) : list timedelta :=
  List.filter (fun t => max_triggered a <? t) (thresholds a).

(** [d[key]] where [d] is what the cache returned: [None] is not
    subscriptable, a missing key is a KeyError. *)
Definition subscript (d : option dict) (key : string) : result timedelta :=
  match d with
  | None => Raise TypeError
  | Some m => match m !! key with
              | Some v => Ok v
              | None => Raise (KeyError key)
              end
  end.

Definition lift {St A} (r : result A) : M St A := fun s => (r, s).

(** ** [get_time], [notify] and the methods of [CategoryAlert] *)

Section Program.

(** [clock k] is what the [k]-th call of [datetime.now(timezone.utc)]
    of the process returns. *)
Variable clock : nat -> datetime.

(** [server k (start, stop)] is how the [k]-th run of the body of
    [get_time] fares with the ActivityWatch client ([aw.get_info] and
    [aw.query] over the one period): an exception or the result for
    that period. *)
Variable server : nat -> datetime * datetime -> result response.

(** [notifier k n] is how the desktop notifier fares with the
    notification [n] (title and message) when it has shown [k]
    notifications before: the construction of [DesktopNotifier], on
    first use, and [send_sync] return, or one of them raises. *)
Variable notifier : nat -> string * string -> result unit.

(** [datetime.now(timezone.utc)] *)
Definition now : M World datetime :=
  fun '(c, o) => (Ok (clock (ticks o)), (c, tick o)).

(** The dict comprehension of [get_time]: a later event of the same
    joined path replaces an earlier one. *)
Definition to_dict (events : list (list string * timedelta)) : dict :=
  fold_left (fun m c => <[String.concat ">" (fst c) := snd c]> m) events ∅.

(** The body of [get_time], before decoration. *)
Definition get_time_body (_ : unit) : M outside dict :=
  fun o =>
    let now := clock (ticks o) in
    let o := tick o in
    let timeperiod := (replace_midnight now + time_offset, now) in
    match server (queries o) timeperiod with
    | Raise e => (Raise e, count_query o)
    | Ok res =>
        let cat_events := res_cat_events res ++ [(["All"%string], res_duration res)] in
        (Ok (to_dict cat_events), count_query o)
    end.

(** [get_time], decorated with [cache_ttl(timedelta(minutes=1))]. *)
Definition get_time : M World (option dict) :=
  fun '(c, o) =>
    TTLCache._cache_ttl (td_minutes 1) get_time_body (clock (ticks o)) tt (c, tick o).

(** [notify(title, msg)]: the notification is handed to the notifier;
    nothing in [notify] catches what the notifier raises. *)
Definition notify (title msg : string) : M World unit :=
  fun '(c, o) =>
    match notifier (length (sent o)) (title, msg) with
    | Ok _ => (Ok tt, (c, push_sent (title, msg) o))
    | Raise e => (Raise e, (c, o))
    end.

(** [logger.error] in [update]. *)
Definition log_error (cat : string) (e : exn) : M World unit :=
  fun '(c, o) => (Ok tt, (c, push_error (mk_error_record cat e) o)).

(** The property [time_to_next_threshold].  The clock is read three
    times on the branch taken when nothing is left to trigger. *)
Definition time_to_next_threshold (a : CategoryAlert) : M World timedelta :=
  match thresholds_untriggered a with
  | [] =>
      n1 <- now ;;
      let day_end := replace_midnight n1 in
      n2 <- now ;;
      let day_end := if day_end <? n2 then day_end + td_days 1 else day_end in
      n3 <- now ;;
      let time_to_next_day := day_end - n3 + time_offset in
      m <- lift (py_min (thresholds a)) ;;
      ret (time_to_next_day + m)
  | _ :: _ =>
      m <- lift (py_min (thresholds_untriggered a)) ;;
      ret (m - time_spent a)
  end.

(** The expression [get_time()[self.category]] of [update]. *)
Definition lookup_time (a : CategoryAlert) : M World timedelta :=
  d <- get_time ;;
  lift (subscript d (category a)).

(** [update]: the method returns the object as it has left it.  The
    property and the sum [self.last_check + time_to_threshold] are
    evaluated before the [try] and before anything is assigned: when
    one of them raises, the object is as it was. *)
Definition update (a : CategoryAlert) : M World CategoryAlert :=
  n <- now ;;
  time_to_threshold <- time_to_next_threshold a ;;
  due <- lift (datetime_add (last_check a) time_to_threshold) ;;
  if due <? n then
    try_except
      (v <- lookup_time a ;;
       ret (set_last_check n (set_time_spent v a)))
      (fun e => log_error (category a) e ;;; ret a)
  else ret a.

(** The message of the notification of [check]. *)
Definition reached_msg (a : CategoryAlert) (thres : timedelta) : string :=
  (label a +:+ ": " +:+ to_hms thres +:+ " reached! (" +:+ to_hms (time_spent a) +:+ ")")%string.

(** The loop of [check] over the sorted thresholds, left by [break]
    at the first one reached.  [max_triggered] is assigned before
    [notify] is called, and nothing in [check] catches what [notify]
    raises: the result is the outcome, the object as the method leaves
    it, also when it raises, and the world. *)
Fixpoint check_loop (a : CategoryAlert) (l : list timedelta) (w : World)
  : result unit * (CategoryAlert * World) :=
  match l with
  | [] => (Ok tt, (a, w))
  | thres :: rest =>
      if thres <=? time_spent a then
        let a' := set_max_triggered thres a in
        let (r, w') := notify "Time spent" (reached_msg a' thres) w in
        (r, (a', w'))
      else check_loop a rest w
  end.

(** [check] *)
Definition check (a : CategoryAlert) (w : World)
  : result unit * (CategoryAlert * World) :=
  check_loop a (sorted_reverse (thresholds_untriggered a)) w.

(** A call of [check] from code that does not catch: when it raises,
    the caller is left and the object is not used again. *)
Definition check_returned (a : CategoryAlert) : M World CategoryAlert :=
  fun w =>
    match check a w with
    | (Ok _, (a', w')) => (Ok a', w')
    | (Raise e, (_, w')) => (Raise e, w')
    end.

(** [status] *)
Definition status (a : CategoryAlert) : string :=
  (label a +:+ ": " +:+ to_hms (time_spent a))%string.

(** The two calls a client makes on an alert. *)
Inductive call : Type := Update | Check.

(** The outcome of a call, the object as the call leaves it and the
    world.  [update] assigns nothing on a path that raises. *)
Definition do_call (c : call) (a : CategoryAlert) (w : World)
  : result unit * (CategoryAlert * World) :=
  match c with
  | Update =>
      match update a w with
      | (Ok a', w') => (Ok tt, (a', w'))
      | (Raise e, w') => (Raise e, (a, w'))
      end
  | Check => check a w
  end.

(** The successive states of one alert under a sequence of calls,
    the state before the first call included.  A call that raises ends
    the sequence, the exception leaves the caller: the last state is
    the object as that call left it. *)
Fixpoint history (cs : list call) (a : CategoryAlert) (w : World) : list CategoryAlert :=
  match cs with
  | [] => [a]
  | c :: rest =>
      match do_call c a w with
      | (Ok _, (a', w')) => a :: history rest a' w'
      | (Raise _, (a', _)) => [a; a']
      end
  end.

End Program.

(** ** The rest of the program: the loop of [threshold_alerts], [checkin],
    [get_active_status] and the hourly thread *)

(** [CATEGORIES]: the category path and the regex of each rule. *)
Definition CATEGORIES : list (list string * string) :=
  [ (["Work"], "Programming|nvim|taxes|Roam|Code");
    (["Twitter"], "Twitter|twitter.com|Home / X");
    (["Youtube"], "Youtube|youtube.com") ]%string.

(** [top_categories] of [checkin]: ["All"] and the first segment of
    each path (no path of [CATEGORIES] is empty). *)
Definition top_categories : list string :=
  "All"%string :: map (fun k => hd ""%string (fst k)) CATEGORIES.

(** The newline of the f-strings. *)
Definition nl : string := String (Ascii.ascii_of_nat 10) EmptyString.

(** [d.replace(minute=0, second=0, microsecond=0)] on a UTC datetime. *)
Definition replace_hour (d : datetime) : datetime := d - d mod td_hours 1.

(** The time that [checkin_thread] sleeps when the clock shows [now]:
    until the next whole hour. *)
Definition sleep_time (now : datetime) : timedelta :=
  let next_hour := replace_hour now + td_hours 1 in
  next_hour - now.

(** [sorted(pairs, key=lambda x: x[1], reverse=True)].  Python's sort
    is stable, also with [reverse=True]: a pair is put behind every
    pair of an equal or greater duration that came before it. *)
Fixpoint insert_by_time (x : string * timedelta) (l : list (string * timedelta))
  : list (string * timedelta) :=
  match l with
  | [] => [x]
  | y :: rest => if snd y <? snd x then x :: y :: rest
                 else y :: insert_by_time x rest
  end.

Definition sorted_by_time (l : list (string * timedelta)) : list (string * timedelta) :=
  fold_left (fun acc x => insert_by_time x acc) l [].

(** [[d[c] for c in keys]]: the first subscript that raises ends the
    comprehension. *)
Fixpoint subscripts (d : option dict) (keys : list string) : result (list timedelta) :=
  match keys with
  | [] => Ok []
  | k :: rest =>
      match subscript d k with
      | Raise e => Raise e
      | Ok v => match subscripts d rest with
                | Raise e => Raise e
                | Ok vs => Ok (v :: vs)
                end
      end
  end.

(** One line of the summary of [checkin]. *)
Definition checkin_line (ct : string * timedelta) : string :=
  (" - " +:+ str_or (Some (fst ct)) "All" +:+ ": " +:+ to_hms (snd ct))%string.

(** The message of [checkin]; [time_spent] has one entry for each of
    [top_categories], so that [time_spent[0]] exists. *)
Definition checkin_msg (time_spent : list timedelta) : string :=
  ("Time spent today: " +:+ to_hms (hd 0 time_spent) +:+ nl
   +:+ "Categories:" +:+ nl
   +:+ String.concat nl
         (map checkin_line (sorted_by_time (combine top_categories time_spent))))%string.

(** The latest event of the AFK bucket, as far as it is read. *)
Record afk_event : Type := mk_afk_event {
  ev_timestamp : datetime;
  ev_duration : timedelta;
  ev_status : string
}.

Section Loops.

Variable clock : nat -> datetime.
Variable server : nat -> datetime * datetime -> result response.
Variable notifier : nat -> string * string -> result unit.

(** [afk k] is how [aw.get_info] and [aw.get_events(..., limit=1)]
    fare when called after [k] readings of the clock: an exception or
    the list of events. *)
Variable afk : nat -> result (list afk_event).

(** A run of calls on one alert; a call that raises ends the run and
    the exception leaves it. *)
Fixpoint run (cs : list call) (a : CategoryAlert) : M World CategoryAlert :=
  match cs with
  | [] => ret a
  | c :: rest =>
      fun w =>
        match do_call clock server notifier c a w with
        | (Ok _, (a', w')) => run rest a' w'
        | (Raise e, (_, w')) => (Raise e, w')
        end
  end.

(** One pass of the [for] loop of [threshold_alerts] over the alerts
    (the status line goes to the debug log only). *)
Fixpoint alerts_pass (alerts : list CategoryAlert) : M World (list CategoryAlert) :=
  match alerts with
  | [] => ret []
  | alert :: rest =>
      a1 <- update clock server alert ;;
      a2 <- check_returned notifier a1 ;;
      rest' <- alerts_pass rest ;;
      ret (a2 :: rest')
  end.

(** [checkin] *)
Definition checkin : M World unit :=
  cat_time <- get_time clock server ;;
  time_spent <- lift (subscripts cat_time top_categories) ;;
  notify notifier "Checkin" (checkin_msg time_spent).

(** [get_active_status]: [None] is Python's None.  The clock is read
    only when there is an event. *)
Definition get_active_status : M World (option bool) :=
  events <- (fun w : World => (afk (ticks (snd w)), w)) ;;
  match events with
  | [] => ret None
  | event :: _ =>
      let event_end := ev_timestamp event + ev_duration event in
      n <- now clock ;;
      if event_end <? n - td_minutes 5 then ret None
      else ret (Some (String.eqb (ev_status event) "not-afk"))
  end.

(** One turn of the [while] loop of [checkin_thread]: the value is the
    time slept; an exception that leaves the turn ends the thread.
    Warnings and info records of the log are left out. *)
Definition checkin_thread_turn : M World timedelta :=
  n <- now clock ;;
  active <- try_except (r <- get_active_status ;; ret (Some r))
                       (fun _ => ret None) ;;
  match active with
  | None => ret (sleep_time n)
  | Some None => ret (sleep_time n)
  | Some (Some false) => ret (sleep_time n)
  | Some (Some true) => checkin ;;; ret (sleep_time n)
  end.

End Loops.

(** The alerts that [threshold_alerts] creates. *)
Definition threshold_alerts_init : list CategoryAlert :=
  [ CategoryAlert_init "All" [td1h; td2h; td4h; td6h; td8h] (Some "All");
    CategoryAlert_init "Twitter" [td15min; td30min; td1h] (Some "🐦 Twitter");
    CategoryAlert_init "Youtube" [td15min; td30min; td1h] (Some "📺 Youtube");
    CategoryAlert_init "Work" [td15min; td30min; td1h; td2h; td4h] (Some "💼 Work") ]%string.

(** ** Sample inputs *)

(** A wrapped operation that always raises, and one that returns its
    state and counts up. *)
Definition always_down : unit -> M unit Z :=
  fun _ s => (Raise (Upstream "down"), s).
Definition next_value : unit -> M Z Z :=
  fun _ s => (Ok s, s + 1).

(** An empty world: fresh cache attributes, nothing read, asked, sent
    or logged. *)
Definition world0 : World := (TTLCache.fresh, mk_outside 0 0 [] []).

(** A clock that stands still at [t]. *)
Definition clock_at (t : datetime) : nat -> datetime := fun _ => t.

(** 2024-01-01 at 23:50, 02:00 and 12:00 UTC (day 19723 since the epoch). *)
Definition at_2350 : datetime := td_days 19723 + td_hours 23 + td_minutes 50.
Definition at_0200 : datetime := td_days 19723 + td_hours 2.
Definition at_noon : datetime := td_days 19723 + td_hours 12.

(** A server that is down, and one that reports [v] for Work. *)
Definition server_down : nat -> datetime * datetime -> result response :=
  fun _ _ => Raise (Upstream "connection refused").
Definition server_work (v : timedelta) : nat -> datetime * datetime -> result response :=
  fun _ _ => Ok (mk_response v [(["Work"%string], v)]).

(** Twitter with its one threshold of 15 minutes already triggered. *)
Definition twitter_done : CategoryAlert :=
  set_max_triggered td15min
    (set_time_spent (td_minutes 20) (CategoryAlert_init "Twitter" [td15min] None)).

(** A new alert of the list of [threshold_alerts]. *)
Definition work_alert : CategoryAlert :=
  CategoryAlert_init "Work" [td15min; td30min; td1h; td2h; td4h] None.

(** A notifier that shows every notification, and one that cannot be
    used. *)
Definition notifier_ok : nat -> string * string -> result unit :=
  fun _ _ => Ok tt.
Definition notifier_down : nat -> string * string -> result unit :=
  fun _ _ => Raise (Upstream "no notification service").

(** A server that reports three hours in all: two of Work and half an
    hour each of Twitter and Youtube. *)
Definition server_day : nat -> datetime * datetime -> result response :=
  fun _ _ => Ok (mk_response (td_hours 3)
                   [ (["Work"], td_hours 2);
                     (["Twitter"], td_minutes 30);
                     (["Youtube"], td_minutes 30) ]%string).

(** An AFK bucket whose latest event says not-afk and ended two
    minutes before [t]. *)
Definition afk_active (t : datetime) : nat -> result (list afk_event) :=
  fun _ => Ok [mk_afk_event (t - td_minutes 10) (td_minutes 8) "not-afk"].

(** ** The day start in the words of the specification *)

(** The next instant of the form midnight UTC + [time_offset] that
    lies in the future of [n]. *)
Definition next_day_start (n : datetime) : datetime :=
  let today := replace_midnight n + time_offset in
  if n <? today then today else today + td_days 1.

(** * Properties *)

(** ** The TTL cache *)

Section cache_properties.
Context {Args V St : Type}.
Variable ttl : timedelta.
Variable func : Args -> M St V.

Import TTLCache.

(** Within the window the wrapper returns the stored value and
    leaves attributes and outside state as they were. *)
Lemma cache_hit now args (c : attrs V) (s : St) :
  now - last_update c <= ttl ->
  _cache_ttl ttl func now args (c, s) = (Ok (cache c), (c, s)).
Proof.
  intros Hw. unfold _cache_ttl.
  destruct (Z.ltb_spec ttl (now - last_update c)) as [Hlt|_]; [lia|reflexivity].
Qed.

(** Past the window, a run of [func] that returns. *)
Lemma cache_refresh now args (c : attrs V) (s s' : St) v :
  ttl < now - last_update c ->
  func args s = (Ok v, s') ->
  _cache_ttl ttl func now args (c, s) = (Ok (Some v), (mk_attrs now (Some v), s')).
Proof.
  intros Hx Hf. unfold _cache_ttl.
  destruct (Z.ltb_spec ttl (now - last_update c)) as [_|Hge]; [|lia].
  rewrite Hf. reflexivity.
Qed.

(** Past the window, a run of [func] that raises. *)
Lemma cache_refresh_raises now args (c : attrs V) (s s' : St) e :
  ttl < now - last_update c ->
  func args s = (Raise e, s') ->
  _cache_ttl ttl func now args (c, s) = (Raise e, (mk_attrs now (cache c), s')).
Proof.
  intros Hx Hf. unfold _cache_ttl.
  destruct (Z.ltb_spec ttl (now - last_update c)) as [_|Hge]; [|lia].
  rewrite Hf. reflexivity.
Qed.

(** Any number of calls within the window of the same timestamp. *)
Lemma calls_within_window nows args (c : attrs V) (s : St) :
  Forall (fun t => t - last_update c <= ttl) nows ->
  calls ttl func nows args (c, s) = (map (fun _ => Ok (cache c)) nows, (c, s)).
Proof.
  induction 1 as [|t rest Ht _ IH]; [reflexivity|].
  cbn [calls map]. rewrite (cache_hit _ _ _ _ Ht), IH. reflexivity.
Qed.

End cache_properties.

Section cache_claims.
Context {Args V St : Type}.
Variable ttl : timedelta.
Variable func : Args -> M St V.

Import TTLCache.

(** C6.  A call made when [now - last_update <= ttl] returns the
    stored value and does not run the wrapped function: attributes,
    outside state and call counter are as before, and so any series of
    calls within the window returns the same value every time.  A call
    made when [now - last_update > ttl] whose run of the function
    returns [v] runs it exactly once (the counter goes up by one),
    stores [v] and [now], and returns [v]. *)
Theorem cache_ttl_get now args (c : attrs V) (n : nat) (s : St) :
  (now - last_update c <= ttl ->
     _cache_ttl ttl (counted func) now args (c, (n, s))
       = (Ok (cache c), (c, (n, s))))
  /\ (forall nows,
        Forall (fun t => t - last_update c <= ttl) nows ->
        calls ttl (counted func) nows args (c, (n, s))
          = (map (fun _ => Ok (cache c)) nows, (c, (n, s))))
  /\ (forall v s',
        now - last_update c > ttl ->
        func args s = (Ok v, s') ->
        _cache_ttl ttl (counted func) now args (c, (n, s))
          = (Ok (Some v), (mk_attrs now (Some v), (S n, s')))).
Proof.
  split; [|split].
  - intros Hw. apply cache_hit. exact Hw.
  - intros nows Hw. apply calls_within_window. exact Hw.
  - intros v s' Hx Hf. apply cache_refresh; [lia|].
    unfold counted. rewrite Hf. reflexivity.
Qed.

(** C5, amended.  When the run of the wrapped function raises, the
    exception reaches the caller, the stored value is kept and the
    timestamp has been moved to the time of the call; a next call
    within the window of that time returns the kept value. *)
Theorem cache_ttl_failure now args (c : attrs V) (s s' : St) e :
  ttl < now - last_update c ->
  func args s = (Raise e, s') ->
  _cache_ttl ttl func now args (c, s) = (Raise e, (mk_attrs now (cache c), s'))
  /\ forall now2,
       now2 - now <= ttl ->
       _cache_ttl ttl func now2 args (mk_attrs now (cache c), s')
         = (Ok (cache c), (mk_attrs now (cache c), s')).
Proof.
  intros Hx Hf. split.
  - apply cache_refresh_raises; assumption.
  - intros now2 Hw.
    apply (cache_hit ttl func now2 args (mk_attrs now (cache c))). exact Hw.
Qed.

(** C10.  When the run of the wrapped function in the very first call
    raises, the timestamp is the time of that call and the stored value
    is still [None]; every later call within the window returns [None]
    and does not run the function (the counter stays at one). *)
Theorem cache_ttl_first_failure now args (s s' : St) e :
  ttl < now - epoch ->
  func args s = (Raise e, s') ->
  _cache_ttl ttl (counted func) now args (fresh, (O, s))
    = (Raise e, (mk_attrs now None, (1%nat, s')))
  /\ forall nows,
       Forall (fun t => t - now <= ttl) nows ->
       calls ttl (counted func) nows args (mk_attrs now None, (1%nat, s'))
         = (map (fun _ => Ok None) nows, (mk_attrs now None, (1%nat, s'))).
Proof.
  intros Hx Hf. split.
  - apply (cache_refresh_raises ttl (counted func) now args fresh); [exact Hx|].
    unfold counted. rewrite Hf. reflexivity.
  - intros nows Hw.
    apply (calls_within_window ttl (counted func) nows args (mk_attrs now None)).
    exact Hw.
Qed.

End cache_claims.

Lemma cache_ttl_get_witness :
  TTLCache.calls (td_minutes 1) (TTLCache.counted next_value)
      [td_seconds 100; td_seconds 130] tt (TTLCache.mk_attrs (td_seconds 90) (Some 7), (O, 8))
    = ([Ok (Some 7); Ok (Some 7)], (TTLCache.mk_attrs (td_seconds 90) (Some 7), (O, 8)))
  /\ TTLCache._cache_ttl (td_minutes 1) (TTLCache.counted next_value)
      (td_seconds 151) tt (TTLCache.mk_attrs (td_seconds 90) (Some 7), (O, 8))
    = (Ok (Some 8), (TTLCache.mk_attrs (td_seconds 151) (Some 8), (1%nat, 9))).
Proof.
  pose proof (cache_ttl_get (td_minutes 1) next_value (td_seconds 151) tt
                (TTLCache.mk_attrs (td_seconds 90) (Some 7)) O 8) as (_ & Hcalls & Hrefresh).
  split.
  - apply (Hcalls [td_seconds 100; td_seconds 130]).
    repeat constructor; vm_compute; discriminate.
  - apply (Hrefresh 8 9); [vm_compute; reflexivity | reflexivity].
Defined.

(** C5 as stated fails: a raising run leaves the timestamp changed. *)
Lemma cache_ttl_failure_changes_timestamp :
  ~ (forall (now : datetime) (c : TTLCache.attrs Z) (e : exn),
       always_down tt tt = (Raise e, tt) ->
       snd (TTLCache._cache_ttl (td_minutes 1) always_down now tt (c, tt)) = (c, tt)).
Proof.
  intros H.
  specialize (H (td_seconds 100) TTLCache.fresh (Upstream "down") eq_refl).
  vm_compute in H. discriminate H.
Qed.

Lemma cache_ttl_failure_witness :
  TTLCache._cache_ttl (td_minutes 1) always_down (td_seconds 100) tt
      (TTLCache.mk_attrs (td_seconds 10) (Some 7), tt)
    = (Raise (Upstream "down"), (TTLCache.mk_attrs (td_seconds 100) (Some 7), tt))
  /\ TTLCache._cache_ttl (td_minutes 1) always_down (td_seconds 130) tt
      (TTLCache.mk_attrs (td_seconds 100) (Some 7), tt)
    = (Ok (Some 7), (TTLCache.mk_attrs (td_seconds 100) (Some 7), tt)).
Proof.
  destruct (cache_ttl_failure (td_minutes 1) always_down (td_seconds 100) tt
              (TTLCache.mk_attrs (td_seconds 10) (Some 7)) tt tt (Upstream "down"))
    as [H1 H2]; [vm_compute; reflexivity | reflexivity |].
  split; [exact H1 | apply H2; vm_compute; discriminate].
Defined.

Lemma cache_ttl_first_failure_witness :
  TTLCache._cache_ttl (td_minutes 1) (TTLCache.counted always_down) (td_seconds 100) tt
      (TTLCache.fresh, (O, tt))
    = (Raise (Upstream "down"), (TTLCache.mk_attrs (td_seconds 100) None, (1%nat, tt)))
  /\ TTLCache.calls (td_minutes 1) (TTLCache.counted always_down)
      [td_seconds 110; td_seconds 160] tt (TTLCache.mk_attrs (td_seconds 100) None, (1%nat, tt))
    = ([Ok None; Ok None], (TTLCache.mk_attrs (td_seconds 100) None, (1%nat, tt))).
Proof.
  destruct (cache_ttl_first_failure (td_minutes 1) always_down (td_seconds 100) tt tt tt
              (Upstream "down")) as [H1 H2]; [vm_compute; reflexivity | reflexivity |].
  split; [exact H1 |].
  apply (H2 [td_seconds 110; td_seconds 160]).
  repeat constructor; vm_compute; discriminate.
Defined.

(** ** Helpers on lists of durations *)

#[global] Instance desc_total : Total desc.
Proof. intros x y. unfold desc. lia. Qed.

#[global] Instance desc_trans : Transitive desc.
Proof. intros x y z. unfold desc. lia. Qed.

Lemma fold_min_le (l : list timedelta) x : fold_left Z.min l x <= x.
Proof.
  revert x. induction l as [|y l IH]; intros x; cbn [fold_left]; [lia|].
  specialize (IH (Z.min x y)). lia.
Qed.

Lemma fold_min_lower (l : list timedelta) x t :
  In t l -> fold_left Z.min l x <= t.
Proof.
  revert x. induction l as [|y l IH]; intros x Hin; [destruct Hin|].
  cbn [fold_left]. destruct Hin as [->|Hin].
  - pose proof (fold_min_le l (Z.min x t)). lia.
  - apply IH. exact Hin.
Qed.

Lemma fold_min_in (l : list timedelta) x :
  fold_left Z.min l x = x \/ In (fold_left Z.min l x) l.
Proof.
  revert x. induction l as [|y l IH]; intros x; cbn [fold_left]; [left; reflexivity|].
  destruct (IH (Z.min x y)) as [Heq|Hin].
  - rewrite Heq. destruct (Z.min_spec x y) as [[_ ->]|[_ ->]];
      [left; reflexivity | right; left; reflexivity].
  - right. right. exact Hin.
Qed.

(** [min] of a non-empty list is its least member. *)
Lemma py_min_spec (l : list timedelta) :
  l <> [] ->
  exists m, py_min l = Ok m /\ In m l /\ forall t, In t l -> m <= t.
Proof.
  destruct l as [|x rest]; [congruence|]. intros _.
  exists (fold_left Z.min rest x). split; [reflexivity|]. split.
  - destruct (fold_min_in rest x) as [->|Hin]; [left; reflexivity | right; exact Hin].
  - intros t [<-|Hin]; [apply fold_min_le | apply fold_min_lower; exact Hin].
Qed.

Lemma in_untriggered (a : CategoryAlert) t :
  In t (thresholds_untriggered a) <-> In t (thresholds a) /\ max_triggered a < t.
Proof.
  unfold thresholds_untriggered. rewrite filter_In.
  destruct (Z.ltb_spec (max_triggered a) t); intuition (try lia; try discriminate).
Qed.

Lemma in_sorted_reverse (l : list timedelta) t :
  In t (sorted_reverse l) <-> In t l.
Proof.
  unfold sorted_reverse. rewrite <- !list_elem_of_In.
  rewrite (merge_sort_Permutation desc l). reflexivity.
Qed.

Lemma sorted_reverse_sorted (l : list timedelta) :
  StronglySorted desc (sorted_reverse l).
Proof. apply StronglySorted_merge_sort; apply _. Qed.

(** ** [check] *)

(** The message does not depend on the high-water mark. *)
Lemma reached_msg_set_max v (a : CategoryAlert) thres :
  reached_msg (set_max_triggered v a) thres = reached_msg a thres.
Proof. reflexivity. Qed.

(** The loop over a descending list stops at the greatest member that
    [time_spent] has reached, or runs to the end when there is none. *)
Lemma check_loop_spec notifier (a : CategoryAlert) (l : list timedelta) (w : World) :
  StronglySorted desc l ->
  (exists m,
      In m l /\ m <= time_spent a
      /\ (forall t, In t l -> t <= time_spent a -> t <= m)
      /\ check_loop notifier a l w
         = match notifier (length (sent (snd w))) ("Time spent"%string, reached_msg a m) with
           | Ok _ =>
               (Ok tt,
                (set_max_triggered m a,
                 (fst w, push_sent ("Time spent"%string, reached_msg a m) (snd w))))
           | Raise e => (Raise e, (set_max_triggered m a, w))
           end)
  \/ ((forall t, In t l -> time_spent a < t)
      /\ check_loop notifier a l w = (Ok tt, (a, w))).
Proof.
  induction 1 as [|x l Hs IH Hall]; [right; split; [intros t []|reflexivity]|].
  cbn [check_loop]. destruct (Z.leb_spec x (time_spent a)) as [Hle|Hgt].
  - left. exists x. split; [left; reflexivity|]. split; [exact Hle|]. split.
    + intros t [<-|Hin] _; [lia|].
      rewrite Forall_forall in Hall. apply Hall, list_elem_of_In, Hin.
    + destruct w as [c o]. unfold notify. rewrite reached_msg_set_max. cbn [fst snd].
      destruct (notifier (length (sent o)) _); reflexivity.
  - destruct IH as [(m & Hin & Hm & Hmax & Heq)|[Hnone Heq]].
    + left. exists m. split; [right; exact Hin|]. split; [exact Hm|]. split; [|exact Heq].
      intros t [<-|Ht] Hts; [lia | apply Hmax; assumption].
    + right. split; [|exact Heq]. intros t [<-|Ht]; [lia | apply Hnone; exact Ht].
Qed.

(** [check] by the thresholds themselves: the greatest threshold above
    the old high-water mark that [time_spent] has reached, when there
    is one. *)
Lemma check_spec notifier (a : CategoryAlert) (w : World) :
  let crossed t := In t (thresholds a) /\ max_triggered a < t /\ t <= time_spent a in
  (exists m,
      crossed m /\ (forall t, crossed t -> t <= m)
      /\ check notifier a w
         = match notifier (length (sent (snd w))) ("Time spent"%string, reached_msg a m) with
           | Ok _ =>
               (Ok tt,
                (set_max_triggered m a,
                 (fst w, push_sent ("Time spent"%string, reached_msg a m) (snd w))))
           | Raise e => (Raise e, (set_max_triggered m a, w))
           end)
  \/ ((forall t, ~ crossed t) /\ check notifier a w = (Ok tt, (a, w))).
Proof.
  intros crossed.
  assert (Hspec := check_loop_spec notifier a _ w
                     (sorted_reverse_sorted (thresholds_untriggered a))).
  fold (check notifier a w) in Hspec.
  destruct Hspec as [(m & Hin & Hm & Hmax & Heq)|[Hnone Heq]].
  - left. exists m. rewrite in_sorted_reverse, in_untriggered in Hin.
    split; [unfold crossed; tauto|]. split; [|exact Heq].
    intros t (Ht & Hlt & Hle). apply Hmax; [|exact Hle].
    rewrite in_sorted_reverse, in_untriggered. tauto.
  - right. split; [|exact Heq]. intros t (Ht & Hlt & Hle).
    specialize (Hnone t). rewrite in_sorted_reverse, in_untriggered in Hnone.
    specialize (Hnone (conj Ht Hlt)). lia.
Qed.

(** C1.  With [T] the thresholds, [s] the time spent and [h] the old
    high-water mark: when some [t] of [T] has [h < t <= s], [check]
    sets [max_triggered] to the greatest such [t] and hands the
    notifier one notification, the one for that threshold; when the
    notifier shows it, it is the one notification added and [check]
    returns; when the notifier raises, none is added and its exception
    leaves [check], with [max_triggered] already set.  When there is
    no such [t], [max_triggered] stays and no notification is added.
    Either way no other field of the alert changes, nothing else of
    the world does, and at most one notification is added. *)
Theorem check_fires_highest_crossed notifier (a : CategoryAlert) (w : World) :
  let crossed t := In t (thresholds a) /\ max_triggered a < t /\ t <= time_spent a in
  exists r a' w',
    check notifier a w = (r, (a', w'))
    /\ category a' = category a /\ label a' = label a
    /\ thresholds a' = thresholds a /\ time_spent a' = time_spent a
    /\ last_check a' = last_check a
    /\ fst w' = fst w /\ ticks (snd w') = ticks (snd w)
    /\ queries (snd w') = queries (snd w) /\ errors (snd w') = errors (snd w)
    /\ (length (sent (snd w')) <= S (length (sent (snd w))))%nat
    /\ ((exists m,
            crossed m /\ (forall t, crossed t -> t <= m)
            /\ max_triggered a' = m
            /\ let n := ("Time spent",
                         label a +:+ ": " +:+ to_hms m +:+ " reached! ("
                         +:+ to_hms (time_spent a) +:+ ")")%string in
               match notifier (length (sent (snd w))) n with
               | Ok _ => r = Ok tt /\ sent (snd w') = sent (snd w) ++ [n]
               | Raise e => r = Raise e /\ sent (snd w') = sent (snd w)
               end)
        \/ ((forall t, ~ crossed t)
            /\ r = Ok tt /\ max_triggered a' = max_triggered a
            /\ sent (snd w') = sent (snd w))).
Proof.
  intros crossed.
  destruct (check_spec notifier a w) as [(m & Hc & Hmax & Heq)|[Hnone Heq]].
  - fold (reached_msg a m). cbv zeta.
    change (label a +:+ ": " +:+ to_hms m +:+ " reached! ("
            +:+ to_hms (time_spent a) +:+ ")")%string with (reached_msg a m).
    rewrite Heq.
    destruct (notifier (length (sent (snd w))) ("Time spent"%string, reached_msg a m))
      as [u|e] eqn:Hn.
    + eexists _, _, _. split; [reflexivity|]. cbn [fst snd].
      repeat (split; [reflexivity|]).
      split; [unfold push_sent; cbn [sent]; rewrite length_app; cbn [length]; lia|].
      left. exists m. split; [exact Hc|]. split; [exact Hmax|].
      split; [reflexivity|]. cbv zeta. unfold reached_msg in Hn |- *.
      rewrite Hn. split; reflexivity.
    + eexists _, _, _. split; [reflexivity|]. cbn [fst snd].
      repeat (split; [reflexivity|]).
      split; [lia|].
      left. exists m. split; [exact Hc|]. split; [exact Hmax|].
      split; [reflexivity|]. cbv zeta. unfold reached_msg in Hn |- *.
      rewrite Hn. split; reflexivity.
  - rewrite Heq. eexists _, _, _. split; [reflexivity|]. cbn [fst snd].
    repeat (split; [reflexivity|]).
    split; [lia|]. right. split; [exact Hnone|]. repeat split; reflexivity.
Qed.

(** The example of the specification: thresholds 15m, 30m and 1h, the
    time spent jumps from 0 to 45m: one notification, for 30m.  With a
    notifier that raises, the high-water mark is 30m all the same and
    no notification has been shown. *)
Example check_jump_45m :
  check notifier_ok
    (mk_alert "Twitter" "Twitter" [td_minutes 15; td_minutes 30; td_hours 1]
       0 (td_minutes 45) epoch)
    world0
  = (Ok tt,
     (mk_alert "Twitter" "Twitter" [td_minutes 15; td_minutes 30; td_hours 1]
        (td_minutes 30) (td_minutes 45) epoch,
      (TTLCache.fresh,
       mk_outside 0 0 [("Time spent", "Twitter: 30m reached! (45m)")%string] [])))
  /\ check notifier_down
       (mk_alert "Twitter" "Twitter" [td_minutes 15; td_minutes 30; td_hours 1]
          0 (td_minutes 45) epoch)
       world0
     = (Raise (Upstream "no notification service"),
        (mk_alert "Twitter" "Twitter" [td_minutes 15; td_minutes 30; td_hours 1]
           (td_minutes 30) (td_minutes 45) epoch,
         (TTLCache.fresh, mk_outside 0 0 [] []))).
Proof. split; vm_compute; reflexivity. Qed.

(** ** [time_to_next_threshold] *)

Section ttnt_properties.
Variable clock : nat -> datetime.

(** With a threshold left to trigger the clock is not read. *)
Lemma ttnt_untriggered (a : CategoryAlert) (w : World) :
  thresholds_untriggered a <> [] ->
  exists m,
    In m (thresholds_untriggered a)
    /\ (forall t, In t (thresholds_untriggered a) -> m <= t)
    /\ time_to_next_threshold clock a w = (Ok (m - time_spent a), w).
Proof.
  intros Hne. destruct (py_min_spec _ Hne) as (m & Hmin & Hin & Hle).
  exists m. split; [exact Hin|]. split; [exact Hle|].
  unfold time_to_next_threshold.
  destruct (thresholds_untriggered a) as [|x l] eqn:E; [congruence|].
  unfold bind, lift, ret. rewrite Hmin. reflexivity.
Qed.

(** With nothing left to trigger the clock is read three times. *)
Lemma ttnt_exhausted (a : CategoryAlert) (c : TTLCache.attrs dict) (o : outside) :
  thresholds_untriggered a = [] ->
  let n1 := clock (ticks o) in
  let n2 := clock (S (ticks o)) in
  let n3 := clock (S (S (ticks o))) in
  let day_end := if replace_midnight n1 <? n2
                 then replace_midnight n1 + td_days 1 else replace_midnight n1 in
  time_to_next_threshold clock a (c, o)
  = (match py_min (thresholds a) with
     | Ok m => Ok (day_end - n3 + time_offset + m)
     | Raise e => Raise e
     end, (c, tick (tick (tick o)))).
Proof.
  intros Hnil. cbv zeta. unfold time_to_next_threshold. rewrite Hnil.
  unfold bind, now, lift, ret. cbn [ticks tick].
  destruct (py_min (thresholds a)); reflexivity.
Qed.

(** The property changes nothing but the count of clock readings. *)
Lemma ttnt_world (a : CategoryAlert) (w w' : World) r :
  time_to_next_threshold clock a w = (r, w') ->
  fst w' = fst w /\ queries (snd w') = queries (snd w)
  /\ sent (snd w') = sent (snd w) /\ errors (snd w') = errors (snd w).
Proof.
  destruct w as [c o]. destruct (thresholds_untriggered a) as [|x l] eqn:E.
  - pose proof (ttnt_exhausted a c o E) as H. cbv zeta in H. rewrite H.
    intros [= _ <-]. cbn. auto.
  - assert (Hne : thresholds_untriggered a <> []) by (rewrite E; discriminate).
    destruct (ttnt_untriggered a (c, o) Hne) as (m & _ & _ & H). rewrite H.
    intros [= _ <-]. auto.
Qed.

End ttnt_properties.

(** C2.  When some threshold of the alert is strictly greater than
    [max_triggered], [time_to_next_threshold] is the least such
    threshold minus [time_spent], that difference being a timedelta,
    and the world is untouched.  For
    thresholds = {1h}, [max_triggered = 0] and 40 minutes spent it is
    20 minutes; with one hour spent it is zero and with two hours
    spent it is minus one hour; for thresholds = {15m, 30m, 1h} with
    [max_triggered = 15m] and 20 minutes spent it is 10 minutes. *)
Theorem time_to_next_threshold_untriggered :
  (forall clock (a : CategoryAlert) (w : World) m,
      In m (thresholds a) -> max_triggered a < m ->
      (forall t, In t (thresholds a) -> max_triggered a < t -> m <= t) ->
      timedelta_min <= m - time_spent a <= timedelta_max ->
      time_to_next_threshold clock a w = (Ok (m - time_spent a), w))
  /\ (forall clock w,
        time_to_next_threshold clock
          (mk_alert "Work" "Work" [td_hours 1] 0 (td_minutes 40) epoch) w
        = (Ok (td_minutes 20), w))
  /\ (forall clock w,
        time_to_next_threshold clock
          (mk_alert "Work" "Work" [td_hours 1] 0 (td_hours 1) epoch) w
        = (Ok 0, w))
  /\ (forall clock w,
        time_to_next_threshold clock
          (mk_alert "Work" "Work" [td_hours 1] 0 (td_hours 2) epoch) w
        = (Ok (- td_hours 1), w))
  /\ (forall clock w,
        time_to_next_threshold clock
          (mk_alert "Twitter" "Twitter" [td_minutes 15; td_minutes 30; td_hours 1]
             (td_minutes 15) (td_minutes 20) epoch) w
        = (Ok (td_minutes 10), w)).
Proof.
  split.
  - intros clock a w m Hin Hlt Hleast _.
    assert (Hm : In m (thresholds_untriggered a)) by (apply in_untriggered; tauto).
    assert (Hne : thresholds_untriggered a <> []).
    { intros Hnil. rewrite Hnil in Hm. destruct Hm. }
    destruct (ttnt_untriggered clock a w Hne) as (m' & Hin' & Hle' & Heq).
    assert (Hmm : m' = m).
    { apply Z.le_antisymm; [apply Hle'; exact Hm|].
      apply in_untriggered in Hin'. destruct Hin' as [H1 H2]. apply Hleast; assumption. }
    rewrite Heq, Hmm. reflexivity.
  - repeat split; intros clock [c o]; reflexivity.
Qed.

(** An alert whose first threshold has been triggered. *)
Lemma time_to_next_threshold_untriggered_witness :
  time_to_next_threshold (clock_at at_noon)
    (mk_alert "Twitter" "Twitter" [td_minutes 15; td_minutes 30; td_hours 1]
       (td_minutes 15) (td_minutes 50) epoch)
    world0
  = (Ok (td_minutes 30 - td_minutes 50), world0).
Proof.
  apply (proj1 time_to_next_threshold_untriggered (clock_at at_noon)
           (mk_alert "Twitter" "Twitter" [td_minutes 15; td_minutes 30; td_hours 1]
              (td_minutes 15) (td_minutes 50) epoch)
           world0 (td_minutes 30)).
  - right. left. reflexivity.
  - reflexivity.
  - intros t [<-|[<-|[<-|[]]]] Ht; vm_compute in Ht |- *; congruence.
  - vm_compute. split; discriminate.
Defined.

(** ** The branch for the next day *)

(** With a clock that stands still at [n] and a least threshold [m],
    the branch returns the time to the next day start of the
    specification plus [m] when [n] is at midnight or at least
    [time_offset] past it, and a whole day more than that when [n]
    lies strictly between midnight and [time_offset] past it. *)
Lemma ttnt_exhausted_vs_next_day_start n (a : CategoryAlert) (w : World) m :
  thresholds_untriggered a = [] ->
  py_min (thresholds a) = Ok m ->
  fst (time_to_next_threshold (clock_at n) a w)
  = Ok (next_day_start n - n + m
        + (if (0 <? n mod us_per_day) && (n mod us_per_day <? time_offset)
           then td_days 1 else 0)).
Proof.
  intros Hnil Hmin. destruct w as [c o].
  pose proof (ttnt_exhausted (clock_at n) a c o Hnil) as H. cbv zeta in H.
  rewrite H, Hmin. cbn [fst]. f_equal.
  unfold clock_at, next_day_start, replace_midnight.
  assert (Hd : 0 <= n mod us_per_day < us_per_day)
    by (apply Z.mod_pos_bound; unfold us_per_day, us_per_second; lia).
  set (r := n mod us_per_day) in *. clearbody r.
  change time_offset with 14400000000.
  change (td_days 1) with 86400000000.
  change us_per_day with 86400000000 in Hd.
  destruct (Z.ltb_spec (n - r) n), (Z.ltb_spec n (n - r + 14400000000)),
    (Z.ltb_spec 0 r), (Z.ltb_spec r 14400000000); cbn [andb]; lia.
Qed.

(** The scenario of the specification: computed at 23:50 UTC with all
    thresholds triggered and a least threshold of 15 minutes, the
    result is the time until 04:00 UTC of the next day plus 15
    minutes. *)
Example ttnt_at_2350 :
  fst (time_to_next_threshold (clock_at at_2350) twitter_done world0)
  = Ok (td_hours 4 + td_minutes 10 + td15min)
  /\ next_day_start at_2350 = td_days 19724 + td_hours 4.
Proof. split; vm_compute; reflexivity. Qed.

(** C3, where the code departs from it.  At 02:00 UTC, with all
    thresholds triggered and a least threshold of 15 minutes, the next
    instant of the form midnight + 4h lies 2 hours ahead, and
    [time_to_next_threshold] returns 26 hours plus 15 minutes. *)
Theorem time_to_next_threshold_at_0200 :
  thresholds_untriggered twitter_done = []
  /\ next_day_start at_0200 - at_0200 = td_hours 2
  /\ fst (time_to_next_threshold (clock_at at_0200) twitter_done world0)
     = Ok (td_hours 26 + td15min).
Proof. repeat split; vm_compute; reflexivity. Qed.

(** C4, where the code departs from it.  An alert whose list of
    thresholds is empty has nothing untriggered, whatever its other
    fields; [time_to_next_threshold] takes the branch for the next
    day, reads the clock three times and raises ValueError at
    [min(self.thresholds)], and so does [update]. *)
Theorem time_to_next_threshold_no_thresholds clock server cat lbl mt ts lc (w : World) :
  let a := mk_alert cat lbl [] mt ts lc in
  thresholds_untriggered a = []
  /\ time_to_next_threshold clock a w
     = (Raise ValueError, (fst w, tick (tick (tick (snd w)))))
  /\ fst (update clock server a w) = Raise ValueError.
Proof.
  intros a. destruct w as [c o].
  assert (Hnil : thresholds_untriggered a = []) by reflexivity.
  pose proof (ttnt_exhausted clock a c o Hnil) as H. cbv zeta in H.
  cbn [thresholds a py_min] in H.
  split; [exact Hnil|]. split; [exact H|].
  unfold update, bind, now. cbn [ticks tick].
  change (mk_outside (S (ticks o)) (queries o) (sent o) (errors o)) with (tick o).
  pose proof (ttnt_exhausted clock a c (tick o) Hnil) as H'. cbv zeta in H'.
  cbn [thresholds a py_min] in H'. rewrite H'. reflexivity.
Qed.

(** ** [update] *)

(** The sum of a datetime and a timedelta within the years 1 to 9999,
    and outside. *)
Lemma datetime_add_in_range (d : datetime) (t : timedelta) :
  datetime_min <= d + t <= datetime_max -> datetime_add d t = Ok (d + t).
Proof.
  intros [H1 H2]. unfold datetime_add.
  destruct (Z.leb_spec datetime_min (d + t)); [|lia].
  destruct (Z.leb_spec (d + t) datetime_max); [reflexivity|lia].
Qed.

Lemma datetime_add_out_of_range (d : datetime) (t : timedelta) :
  ~ datetime_min <= d + t <= datetime_max -> datetime_add d t = Raise OverflowError.
Proof.
  intros H. unfold datetime_add.
  destruct (Z.leb_spec datetime_min (d + t)); [|reflexivity].
  destruct (Z.leb_spec (d + t) datetime_max); [lia|reflexivity].
Qed.

Lemma datetime_range_dec (x : datetime) :
  {datetime_min <= x <= datetime_max} + {~ datetime_min <= x <= datetime_max}.
Proof.
  destruct (Z_le_dec datetime_min x); [|right; lia].
  destruct (Z_le_dec x datetime_max); [left; lia|right; lia].
Qed.

Section update_properties.
Variable clock : nat -> datetime.
Variable server : nat -> datetime * datetime -> result response.

(** [update] after its first two lines, the reading of the clock and
    the property, when the sum of the third is a datetime. *)
Lemma update_unfold (a : CategoryAlert) (w w2 : World) d :
  time_to_next_threshold clock a (fst w, tick (snd w)) = (Ok d, w2) ->
  datetime_min <= last_check a + d <= datetime_max ->
  update clock server a w
  = if last_check a + d <? clock (ticks (snd w)) then
      match lookup_time clock server a w2 with
      | (Ok v, w3) =>
          (Ok (set_last_check (clock (ticks (snd w))) (set_time_spent v a)), w3)
      | (Raise e, w3) =>
          (Ok a, (fst w3, push_error (mk_error_record (category a) e) (snd w3)))
      end
    else (Ok a, w2).
Proof.
  intros Ht Hr. destruct w as [c o]. cbn [fst snd] in *.
  unfold update. unfold bind at 1. unfold now at 1. cbn [ticks tick].
  change (mk_outside (S (ticks o)) (queries o) (sent o) (errors o)) with (tick o).
  unfold bind at 1. rewrite Ht.
  unfold bind at 1. unfold lift. rewrite (datetime_add_in_range _ _ Hr).
  destruct (last_check a + d <? clock (ticks o)); [|reflexivity].
  unfold try_except, bind, ret.
  destruct (lookup_time clock server a w2) as [[v|e] [c3 o3]]; reflexivity.
Qed.

(** When the sum is no datetime, [update] raises OverflowError before
    its [try]: nothing is asked, assigned or logged. *)
Lemma update_out_of_range (a : CategoryAlert) (w w2 : World) d :
  time_to_next_threshold clock a (fst w, tick (snd w)) = (Ok d, w2) ->
  ~ datetime_min <= last_check a + d <= datetime_max ->
  update clock server a w = (Raise OverflowError, w2).
Proof.
  intros Ht Hr. destruct w as [c o]. cbn [fst snd] in *.
  unfold update. unfold bind at 1. unfold now at 1. cbn [ticks tick].
  change (mk_outside (S (ticks o)) (queries o) (sent o) (errors o)) with (tick o).
  unfold bind at 1. rewrite Ht.
  unfold bind at 1. unfold lift. rewrite (datetime_add_out_of_range _ _ Hr).
  reflexivity.
Qed.

(** When the property raises, so does [update]. *)
Lemma update_raises (a : CategoryAlert) (w w2 : World) e :
  time_to_next_threshold clock a (fst w, tick (snd w)) = (Raise e, w2) ->
  update clock server a w = (Raise e, w2).
Proof.
  intros Ht. destruct w as [c o]. cbn [fst snd] in *.
  unfold update. unfold bind at 1. unfold now at 1. cbn [ticks tick].
  change (mk_outside (S (ticks o)) (queries o) (sent o) (errors o)) with (tick o).
  unfold bind at 1. rewrite Ht. reflexivity.
Qed.

(** [update] never touches the thresholds or the high-water mark. *)
Lemma update_keeps (a a' : CategoryAlert) (w w' : World) :
  update clock server a w = (Ok a', w') ->
  thresholds a' = thresholds a /\ max_triggered a' = max_triggered a.
Proof.
  destruct (time_to_next_threshold clock a (fst w, tick (snd w))) as [[d|e] w2] eqn:Ht.
  - destruct (datetime_range_dec (last_check a + d)) as [Hr|Hr].
    + rewrite (update_unfold a w w2 d Ht Hr).
      destruct (last_check a + d <? clock (ticks (snd w))).
      * destruct (lookup_time clock server a w2) as [[v|e] w3];
          intros [= <- _]; split; reflexivity.
      * intros [= <- _]. split; reflexivity.
    + rewrite (update_out_of_range a w w2 d Ht Hr). discriminate.
  - rewrite (update_raises a w w2 e Ht). discriminate.
Qed.

End update_properties.

(** C7.  Let [n] be the clock as [update] reads it and [d] the value
    of [time_to_next_threshold], with [last_check + d] a datetime (of
    the years 1 to 9999).  When [n - last_check > d], [update] asks
    the aggregator and, the answer being [v], sets [time_spent] to [v]
    and [last_check] to [n], and nothing else.  When not, [update]
    returns the alert as it was, the cache attributes are untouched
    and no query has been made.  An alert that comes back changed was
    therefore due. *)
Theorem update_refreshes_iff_due clock server (a : CategoryAlert) (w w2 : World) d :
  time_to_next_threshold clock a (fst w, tick (snd w)) = (Ok d, w2) ->
  datetime_min <= last_check a + d <= datetime_max ->
  let n := clock (ticks (snd w)) in
  (n - last_check a > d ->
     forall v w3,
       lookup_time clock server a w2 = (Ok v, w3) ->
       update clock server a w
       = (Ok (mk_alert (category a) (label a) (thresholds a) (max_triggered a) v n), w3))
  /\ (~ n - last_check a > d ->
        update clock server a w = (Ok a, w2)
        /\ fst w2 = fst w /\ queries (snd w2) = queries (snd w))
  /\ (forall a' w',
        update clock server a w = (Ok a', w') -> a' <> a -> n - last_check a > d).
Proof.
  intros Ht Hr n. pose proof (update_unfold clock server a w w2 d Ht Hr) as Hu.
  fold n in Hu. destruct (Z.ltb_spec (last_check a + d) n) as [Hdue|Hnot].
  - split; [|split].
    + intros _ v w3 Hq. rewrite Hu, Hq. reflexivity.
    + intros Hn. lia.
    + intros; lia.
  - split; [|split].
    + intros Hn. lia.
    + intros _. split; [exact Hu|].
      destruct (ttnt_world clock a _ _ _ Ht) as (H1 & H2 & _). cbn [fst snd] in *.
      split; [exact H1|]. rewrite H2. destruct w as [c o]. reflexivity.
    + intros a' w' Hup Hne. rewrite Hu in Hup. injection Hup as <- _. congruence.
Qed.

Lemma update_refreshes_iff_due_witness :
  fst (update (clock_at at_noon) (server_work (td_minutes 20)) work_alert world0)
  = Ok (mk_alert "Work" "Work" [td15min; td30min; td1h; td2h; td4h] 0
          (td_minutes 20) at_noon).
Proof.
  destruct (update_refreshes_iff_due (clock_at at_noon) (server_work (td_minutes 20))
              work_alert world0 (fst world0, tick (snd world0)) td15min eq_refl)
    as (Hdue & _ & _).
  - vm_compute. split; discriminate.
  - rewrite (Hdue ltac:(vm_compute; reflexivity) (td_minutes 20)
               (snd (lookup_time (clock_at at_noon) (server_work (td_minutes 20))
                       work_alert (fst world0, tick (snd world0))))
               ltac:(vm_compute; reflexivity)).
    reflexivity.
Defined.

(** Past the range of datetime: a new alert with one threshold of
    3,000,000 days.  Since [last_check], 54 years have gone by, which
    is less than the threshold, and [update] raises OverflowError at
    the sum of [last_check] and the threshold. *)
Example update_overflow :
  update (clock_at at_noon) (server_work (td_minutes 20))
    (mk_alert "Work" "Work" [td_days 3000000] 0 0 epoch) world0
  = (Raise OverflowError, (TTLCache.fresh, mk_outside 1 0 [] [])).
Proof. vm_compute. reflexivity. Qed.

(** A category that the returned mapping lacks is a KeyError, and a
    cache that still holds [None] a TypeError. *)
Lemma subscript_failures (m : dict) (key : string) :
  (m !! key = None -> subscript (Some m) key = Raise (KeyError key))
  /\ subscript None key = Raise TypeError.
Proof.
  split; [|reflexivity]. intros Hnone. unfold subscript. rewrite Hnone. reflexivity.
Qed.

(** C8.  When [update] is due, [last_check] plus the value of
    [time_to_next_threshold] being a datetime, and its query fails,
    because the aggregator raises or because the subscript with the
    category raises (the category is not in the mapping), [update]
    returns without raising, every field of the alert is as before, so
    [time_spent] and [last_check] are, and the one thing done with the
    exception is an error record in the log. *)
Theorem update_query_failure clock server (a : CategoryAlert) (w w2 w3 : World) d e :
  time_to_next_threshold clock a (fst w, tick (snd w)) = (Ok d, w2) ->
  datetime_min <= last_check a + d <= datetime_max ->
  clock (ticks (snd w)) - last_check a > d ->
  (get_time clock server w2 = (Raise e, w3)
   \/ exists m, get_time clock server w2 = (Ok m, w3)
                /\ subscript m (category a) = Raise e) ->
  update clock server a w
  = (Ok a, (fst w3, push_error (mk_error_record (category a) e) (snd w3))).
Proof.
  intros Ht Hr Hdue Hfail.
  rewrite (update_unfold clock server a w w2 d Ht Hr).
  destruct (Z.ltb_spec (last_check a + d) (clock (ticks (snd w)))) as [_|Hnot]; [|lia].
  assert (Hq : lookup_time clock server a w2 = (Raise e, w3)).
  { unfold lookup_time, bind, lift.
    destruct Hfail as [Hg|(m & Hg & Hs)]; rewrite Hg; [reflexivity|].
    rewrite Hs. reflexivity. }
  rewrite Hq. reflexivity.
Qed.

Lemma update_query_failure_witness :
  update (clock_at at_noon) server_down work_alert world0
  = (Ok work_alert,
     (TTLCache.mk_attrs at_noon None,
      mk_outside 3 1 []
        [mk_error_record "Work" (Upstream "connection refused")])).
Proof.
  apply (update_query_failure (clock_at at_noon) server_down work_alert world0
           (fst world0, tick (snd world0))
           (TTLCache.mk_attrs at_noon None, mk_outside 3 1 [] [])
           td15min (Upstream "connection refused")).
  - reflexivity.
  - vm_compute. split; discriminate.
  - vm_compute. reflexivity.
  - left. vm_compute. reflexivity.
Defined.

(** The category is absent from what the server reports. *)
Example update_category_absent :
  fst (update (clock_at at_noon) (server_work (td_minutes 20))
         (CategoryAlert_init "Youtube" [td15min] None) world0)
  = Ok (CategoryAlert_init "Youtube" [td15min] None)
  /\ errors (snd (snd (update (clock_at at_noon) (server_work (td_minutes 20))
                         (CategoryAlert_init "Youtube" [td15min] None) world0)))
     = [mk_error_record "Youtube" (KeyError "Youtube")].
Proof. split; vm_compute; reflexivity. Qed.

(** ** The high-water mark over a run *)

(** [check] leaves the thresholds alone and either keeps the
    high-water mark or raises it to one of the thresholds, also when
    it raises. *)
Lemma check_steps notifier (a a' : CategoryAlert) (w w' : World) r :
  check notifier a w = (r, (a', w')) ->
  thresholds a' = thresholds a
  /\ (max_triggered a' = max_triggered a
      \/ (In (max_triggered a') (thresholds a)
          /\ max_triggered a < max_triggered a')).
Proof.
  intros Hc.
  destruct (check_spec notifier a w) as [(m & (Hin & Hlt & _) & _ & Heq)|[_ Heq]];
    rewrite Heq in Hc.
  - destruct (notifier _ _); injection Hc as _ <- _;
      (split; [reflexivity|]); right; split; assumption.
  - injection Hc as _ <- _. split; [reflexivity|]. left. reflexivity.
Qed.

(** Every call, whether it returns or raises, keeps the thresholds and
    does not lower the high-water mark, which stays where it was or
    moves to a threshold. *)
Lemma do_call_steps clock server notifier (c : call) (a a' : CategoryAlert)
  (w w' : World) r :
  do_call clock server notifier c a w = (r, (a', w')) ->
  thresholds a' = thresholds a
  /\ (max_triggered a' = max_triggered a
      \/ (In (max_triggered a') (thresholds a)
          /\ max_triggered a < max_triggered a')).
Proof.
  destruct c; cbn [do_call]; intros H.
  - destruct (update clock server a w) as [[a1|e] w1] eqn:Hu.
    + injection H as _ <- _.
      destruct (update_keeps clock server a a1 w w1 Hu) as [Ht Hm].
      split; [exact Ht|]. left. exact Hm.
    + injection H as _ <- _. split; [reflexivity|]. left. reflexivity.
  - apply (check_steps notifier a a' w w' r H).
Qed.

(** The invariant along a history that starts in any state. *)
Lemma history_invariant clock server notifier (ths : list timedelta) (cs : list call) :
  forall (a : CategoryAlert) (w : World),
    thresholds a = ths ->
    (max_triggered a = 0 \/ In (max_triggered a) ths) ->
    Forall (fun x => thresholds x = ths
                     /\ (max_triggered x = 0 \/ In (max_triggered x) ths)
                     /\ max_triggered a <= max_triggered x)
           (history clock server notifier cs a w).
Proof.
  induction cs as [|c cs IH]; intros a w Hths Hinv; cbn [history].
  - constructor; [|constructor]. split; [exact Hths|]. split; [exact Hinv|lia].
  - destruct (do_call clock server notifier c a w) as [r [a' w']] eqn:Hc.
    destruct (do_call_steps clock server notifier c a a' w w' r Hc) as [Ht Hm].
    assert (Hths' : thresholds a' = ths) by congruence.
    assert (Hinv' : max_triggered a' = 0 \/ In (max_triggered a') ths).
    { destruct Hm as [->|[Hin _]]; [exact Hinv|]. right. rewrite <- Hths. exact Hin. }
    assert (Hle : max_triggered a <= max_triggered a')
      by (destruct Hm as [->|[_ Hlt]]; lia).
    destruct r as [u|e].
    + constructor; [split; [exact Hths|]; split; [exact Hinv|lia]|].
      specialize (IH a' w' Hths' Hinv').
      rewrite Forall_forall in IH |- *. intros x Hx.
      destruct (IH x Hx) as (H1 & H2 & H3). split; [exact H1|]. split; [exact H2|lia].
    + constructor; [split; [exact Hths|]; split; [exact Hinv|lia]|].
      constructor; [|constructor]. split; [exact Hths'|]. split; [exact Hinv'|exact Hle].
Qed.

(** The high-water marks along a history never go down. *)
Lemma history_monotone clock server notifier (ths : list timedelta) (cs : list call) :
  forall (a : CategoryAlert) (w : World),
    thresholds a = ths ->
    (max_triggered a = 0 \/ In (max_triggered a) ths) ->
    StronglySorted Z.le (map max_triggered (history clock server notifier cs a w)).
Proof.
  induction cs as [|c cs IH]; intros a w Hths Hinv; cbn [history].
  - cbn. constructor; constructor.
  - destruct (do_call clock server notifier c a w) as [r [a' w']] eqn:Hc.
    destruct (do_call_steps clock server notifier c a a' w w' r Hc) as [Ht Hm].
    assert (Hths' : thresholds a' = ths) by congruence.
    assert (Hinv' : max_triggered a' = 0 \/ In (max_triggered a') ths).
    { destruct Hm as [->|[Hin _]]; [exact Hinv|]. right. rewrite <- Hths. exact Hin. }
    assert (Hle : max_triggered a <= max_triggered a')
      by (destruct Hm as [->|[_ Hlt]]; lia).
    destruct r as [u|e].
    + cbn [map]. constructor; [apply (IH a' w' Hths' Hinv')|].
      pose proof (history_invariant clock server notifier ths cs a' w' Hths' Hinv') as Hall.
      rewrite Forall_forall in Hall. rewrite Forall_forall. intros y Hy.
      apply list_elem_of_In, in_map_iff in Hy. destruct Hy as (x & <- & Hx).
      destruct (Hall x (proj2 (list_elem_of_In _ _) Hx)) as (_ & _ & H3). lia.
    + cbn [map]. constructor; [constructor; [constructor|constructor]|].
      constructor; [exact Hle|constructor].
Qed.

(** C9.  Along every sequence of [update] and [check] calls on an
    alert, from its construction on, [max_triggered] is the zero
    duration or one of the thresholds the alert was made with, and it
    never goes down: in the list of its successive values each one is
    at most every later one.  The object that a raising call leaves
    behind is one of the states. *)
Theorem max_triggered_invariant clock server notifier cat (ths : list timedelta) lbl
  (cs : list call) (w : World) :
  let h := history clock server notifier cs (CategoryAlert_init cat ths lbl) w in
  Forall (fun a => max_triggered a = 0 \/ In (max_triggered a) ths) h
  /\ StronglySorted Z.le (map max_triggered h).
Proof.
  intros h. split.
  - pose proof (history_invariant clock server notifier ths cs
                  (CategoryAlert_init cat ths lbl) w eq_refl (or_introl eq_refl)) as Hall.
    fold h in Hall. rewrite Forall_forall in Hall |- *.
    intros x Hx. destruct (Hall x Hx) as (_ & H & _). exact H.
  - apply (history_monotone clock server notifier ths cs); [reflexivity | left; reflexivity].
Qed.

(** The scenario of the specification: Work with thresholds 15m, 30m,
    1h, 2h and 4h; the server reports 5, then 20, then 35 minutes; the
    notifications are none, then the one for 15m, then the one for 30m. *)
Example work_scenario :
  let sent_by v a := sent (snd (snd (snd (check notifier_ok (set_time_spent v a) world0)))) in
  let a1 := work_alert in
  sent_by (td_minutes 5) a1 = []
  /\ sent_by (td_minutes 20) a1 = [("Time spent", "Work: 15m reached! (20m)")%string]
  /\ sent_by (td_minutes 35) (set_max_triggered td15min a1)
     = [("Time spent", "Work: 30m reached! (35m)")%string].
Proof. repeat split; vm_compute; reflexivity. Qed.

(** * Further properties of the code *)

(** ** The TTL cache: at most one run in a window *)

(** A call past the window leaves the time of the call as timestamp,
    whether the wrapped function returns or raises. *)
Lemma cache_expired_timestamp {Args V St : Type} (ttl : timedelta)
  (func : Args -> M St V) now args (c : TTLCache.attrs V) (s : St) :
  ttl < now - TTLCache.last_update c ->
  TTLCache.last_update (fst (snd (TTLCache._cache_ttl ttl func now args (c, s)))) = now
  /\ snd (snd (TTLCache._cache_ttl ttl func now args (c, s))) = snd (func args s).
Proof.
  intros Hx. unfold TTLCache._cache_ttl.
  destruct (Z.ltb_spec ttl (now - TTLCache.last_update c)) as [_|Hge]; [|lia].
  destruct (func args s) as [[v|e] s']; split; reflexivity.
Qed.

Section cache_rate.
Context {Args V St : Type}.
Variable ttl : timedelta.
Variable func : Args -> M St V.

Import TTLCache.

(** X1.  Whatever the attributes at the start and whatever the wrapped
    function does, a series of calls whose clock readings all lie in
    one interval of length [ttl] runs the wrapped function at most
    once. *)
Theorem cache_ttl_one_run_per_window nows args lo (c : attrs V) (n : nat) (s : St) :
  Forall (fun t => lo <= t <= lo + ttl) nows ->
  (fst (snd (snd (calls ttl (counted func) nows args (c, (n, s))))) <= S n)%nat.
Proof.
  revert c n s. induction nows as [|t rest IH]; intros c n s Hall.
  - cbn. lia.
  - apply Forall_cons in Hall. destruct Hall as [Ht Hrest].
    cbn [calls].
    destruct (Z.ltb_spec ttl (t - last_update c)) as [Hx|Hhit].
    + destruct (cache_expired_timestamp ttl (counted func) t args c (n, s) Hx)
        as [Hlu Hst].
      destruct (_cache_ttl ttl (counted func) t args (c, (n, s)))
        as [r [c1 [n1 s1]]] eqn:E.
      cbn [fst snd] in Hlu, Hst.
      assert (Hn1 : n1 = S n).
      { unfold counted in Hst. destruct (func args s) as [r0 s0].
        cbn in Hst. congruence. }
      rewrite (calls_within_window ttl (counted func) rest args c1 (n1, s1)).
      * cbn. lia.
      * rewrite Hlu. eapply Forall_impl; [exact Hrest|].
        cbn. intros x Hxr. lia.
    + rewrite (cache_hit ttl (counted func) t args c (n, s) Hhit).
      specialize (IH c n s Hrest).
      destruct (calls ttl (counted func) rest args (c, (n, s))) as [rs st2].
      exact IH.
Qed.

End cache_rate.

(** Three calls within one minute on expired attributes, the second of
    them at an earlier reading than the first: one run. *)
Lemma cache_ttl_one_run_per_window_witness :
  Nat.le
    (fst (snd (snd (TTLCache.calls (td_minutes 1) (TTLCache.counted next_value)
                      [td_seconds 130; td_seconds 100; td_seconds 160] tt
                      (TTLCache.fresh, (O, 8))))))
    1%nat.
Proof.
  apply (cache_ttl_one_run_per_window (td_minutes 1) next_value
           [td_seconds 130; td_seconds 100; td_seconds 160] tt (td_seconds 100)
           TTLCache.fresh O 8).
  repeat constructor; vm_compute; discriminate.
Defined.

(** ** [to_hms] *)

(** A string with a unit appended is not empty. *)
Lemma append_unit_nonempty (s n u : string) :
  Nat.eqb (String.length (s +:+ n +:+ u +:+ " ")) O = false.
Proof.
  apply Nat.eqb_neq. induction s as [|c s IH]; cbn.
  - induction n as [|c n IHn]; cbn; [|discriminate].
    destruct u; cbn; discriminate.
  - discriminate.
Qed.

(** The string that [to_hms] builds from the three larger units is
    empty only when none of them is positive. *)
Lemma hms_prefix_nonempty (days hours minutes : Z) :
  0 < days \/ 0 < hours \/ 0 < minutes ->
  Nat.eqb
    (String.length
       (let s := ""%string in
        let s := if 0 <? days then (s +:+ pretty days +:+ "d ")%string else s in
        let s := if 0 <? hours then (s +:+ pretty hours +:+ "h ")%string else s in
        if 0 <? minutes then (s +:+ pretty minutes +:+ "m ")%string else s))
    O = false.
Proof.
  intros H. cbv zeta.
  destruct (Z.ltb_spec 0 minutes) as [Hm|Hm].
  - apply (append_unit_nonempty _ (pretty minutes) "m").
  - destruct (Z.ltb_spec 0 hours) as [Hh|Hh].
    + apply (append_unit_nonempty _ (pretty hours) "h").
    + destruct (Z.ltb_spec 0 days) as [Hd|Hd]; [|lia].
      apply (append_unit_nonempty _ (pretty days) "d").
Qed.

(** X2.  From one minute on, [to_hms] leaves the seconds out: the
    result is that of the duration cut down to whole minutes. *)
Theorem to_hms_drops_seconds (d : timedelta) :
  td_minutes 1 <= d ->
  to_hms d = to_hms (d - d mod td_minutes 1).
Proof.
  intros Hd.
  assert (Hdays : td_days_of (d - d mod td_minutes 1) = td_days_of d).
  { unfold td_days_of, td_minutes, us_per_day, us_per_second in *. 
    Z.to_euclidean_division_equations. lia. }
  assert (Hsecs : td_seconds_of (d - d mod td_minutes 1) / 60
                  = td_seconds_of d / 60).
  { unfold td_seconds_of, td_minutes, us_per_day, us_per_second in *.
    Z.to_euclidean_division_equations. lia. }
  assert (Hh : td_seconds_of (d - d mod td_minutes 1) / 3600
               = td_seconds_of d / 3600).
  { rewrite <- (Z.div_div _ 60 60) by lia. rewrite Hsecs.
    rewrite Z.div_div by lia. reflexivity. }
  assert (Hm : td_seconds_of (d - d mod td_minutes 1) mod 3600 / 60
               = td_seconds_of d mod 3600 / 60).
  { generalize dependent (td_seconds_of (d - d mod td_minutes 1)).
    generalize (td_seconds_of d). intros x y Hxy _.
    Z.to_euclidean_division_equations. lia. }
  assert (Hpos : 0 < td_days_of d \/ 0 < td_seconds_of d / 3600
                 \/ 0 < td_seconds_of d mod 3600 / 60).
  { unfold td_days_of, td_seconds_of, td_minutes, us_per_day, us_per_second in *.
    Z.to_euclidean_division_equations. lia. }
  unfold to_hms. cbv zeta. rewrite Hdays, Hh, Hm.
  pose proof (hms_prefix_nonempty _ _ _ Hpos) as Hne. cbv zeta in Hne.
  rewrite !Hne. reflexivity.
Qed.

Lemma to_hms_drops_seconds_witness :
  to_hms (td_hours 1 + td_seconds 59) = "1h"%string
  /\ to_hms (td_hours 1 + td_seconds 59)
     = to_hms (td_hours 1 + td_seconds 59
               - (td_hours 1 + td_seconds 59) mod td_minutes 1).
Proof.
  split; [vm_compute; reflexivity|].
  apply (to_hms_drops_seconds (td_hours 1 + td_seconds 59)).
  vm_compute. discriminate.
Defined.

(** X3.  The day count of a duration is written only when it is
    positive, so a duration below one day, a negative one included,
    is written as its remainder modulo one day: the sign is lost. *)
Theorem to_hms_below_one_day (d : timedelta) :
  d < td_days 1 ->
  to_hms d = to_hms (d mod us_per_day).
Proof.
  intros Hd. unfold to_hms, td_days_of, td_seconds_of. cbv zeta.
  rewrite Z.mod_mod by (unfold us_per_day, us_per_second; lia).
  assert (H1 : (0 <? d / us_per_day) = false).
  { apply Z.ltb_ge. unfold td_days, us_per_day, us_per_second in *.
    Z.to_euclidean_division_equations. lia. }
  assert (H2 : (0 <? d mod us_per_day / us_per_day) = false).
  { apply Z.ltb_ge. unfold us_per_day, us_per_second in *.
    Z.to_euclidean_division_equations. lia. }
  rewrite H1, H2. reflexivity.
Qed.

Lemma to_hms_below_one_day_witness :
  to_hms (- td_minutes 1) = "23h 59m"%string
  /\ to_hms (- td_minutes 1) = to_hms ((- td_minutes 1) mod us_per_day).
Proof.
  split; [vm_compute; reflexivity|].
  apply (to_hms_below_one_day (- td_minutes 1)). vm_compute. reflexivity.
Defined.

(** The seconds of a duration below one minute, stripped. *)
Lemma strip_seconds_upto_59 :
  forallb (fun k => String.eqb (strip (pretty k +:+ "s ")) (pretty k +:+ "s"))
          (map Z.of_nat (seq 0 60)) = true.
Proof. vm_compute. reflexivity. Qed.

(** X4.  A duration from zero up to, not including, one minute is
    written as its whole seconds and the letter s; zero is "0s". *)
Theorem to_hms_below_one_minute (d : timedelta) :
  0 <= d < td_minutes 1 ->
  to_hms d = (pretty (d / us_per_second) +:+ "s")%string.
Proof.
  intros Hd.
  assert (Hdays : td_days_of d = 0).
  { unfold td_days_of, td_minutes, us_per_day, us_per_second in *.
    Z.to_euclidean_division_equations. lia. }
  assert (Hs : td_seconds_of d = d / us_per_second).
  { unfold td_seconds_of, td_minutes, us_per_day, us_per_second in *.
    rewrite Z.mod_small by lia. reflexivity. }
  assert (Hk : 0 <= d / us_per_second < 60).
  { unfold td_minutes, us_per_second in *.
    Z.to_euclidean_division_equations. lia. }
  unfold to_hms. cbv zeta. rewrite Hdays, Hs.
  generalize dependent (d / us_per_second). intros k _ Hk.
  rewrite (Z.div_small k 3600), (Z.mod_small k 3600) by lia.
  rewrite (Z.div_small k 60), (Z.mod_small k 60) by lia.
  cbn [Z.ltb Z.compare String.length Nat.eqb].
  pose proof strip_seconds_upto_59 as Hall.
  rewrite forallb_forall in Hall.
  specialize (Hall k). apply String.eqb_eq. apply Hall.
  replace k with (Z.of_nat (Z.to_nat k)) by lia.
  apply in_map, in_seq. lia.
Qed.

Lemma to_hms_below_one_minute_witness :
  to_hms (td_seconds 59 + 999999) = "59s"%string.
Proof.
  rewrite (to_hms_below_one_minute (td_seconds 59 + 999999)).
  - vm_compute. reflexivity.
  - vm_compute. split; [discriminate | reflexivity].
Defined.

(** ** The mapping built by [get_time] *)

(** The last event of a list whose joined category path is [k]. *)
Lemma to_dict_snoc (events : list (list string * timedelta)) c :
  to_dict (events ++ [c]) = <[String.concat ">" (fst c) := snd c]> (to_dict events).
Proof. unfold to_dict. rewrite fold_left_app. reflexivity. Qed.

(** A key of the mapping holds the duration of the last event with
    that joined path, and a path that no event has is not a key. *)
Lemma to_dict_lookup (events : list (list string * timedelta)) (k : string) :
  to_dict events !! k
  = option_map snd
      (List.find (fun c => String.eqb (String.concat ">" (fst c)) k) (rev events)).
Proof.
  induction events as [|c events IH] using rev_ind.
  - unfold to_dict. cbn. apply lookup_empty.
  - rewrite to_dict_snoc, rev_app_distr. cbn [rev app List.find].
    destruct (String.eqb_spec (String.concat ">" (fst c)) k) as [Heq|Hne].
    + rewrite Heq. cbn. apply lookup_insert_eq.
    + rewrite lookup_insert_ne by exact Hne. exact IH.
Qed.

(** X5.  When the query succeeds, the mapping that the body of
    [get_time] returns has the key All with the total duration of the
    result, also when an event of the result has the path All; every
    other key is a joined category path of the result and holds the
    duration of the last event with that path. *)
Theorem get_time_body_mapping clock server (o : outside) res :
  server (queries o)
         (replace_midnight (clock (ticks o)) + time_offset, clock (ticks o)) = Ok res ->
  exists m : dict,
    get_time_body clock server tt o = (Ok m, count_query (tick o))
    /\ m !! "All"%string = Some (res_duration res)
    /\ forall k, k <> "All"%string ->
         m !! k
         = option_map snd
             (List.find (fun c => String.eqb (String.concat ">" (fst c)) k)
                        (rev (res_cat_events res))).
Proof.
  intros Hs. unfold get_time_body. cbn [queries tick]. rewrite Hs.
  eexists. split; [reflexivity|]. split.
  - rewrite to_dict_snoc. cbn. apply lookup_insert_eq.
  - intros k Hk. rewrite to_dict_snoc. cbn [fst snd String.concat].
    rewrite lookup_insert_ne by congruence. apply to_dict_lookup.
Qed.

(** A server with a nested category, a repeated one and one named All. *)
Lemma get_time_body_mapping_witness :
  exists m : dict,
    get_time_body (clock_at at_noon)
      (fun _ _ => Ok (mk_response (td_minutes 90)
                        [ (["Work"; "Programming"], td_minutes 50);
                          (["All"], td_minutes 1);
                          (["Work"; "Programming"], td_minutes 40) ]%string))
      tt (mk_outside 0 0 [] [])
    = (Ok m, mk_outside 1 1 [] [])
    /\ m !! "All"%string = Some (td_minutes 90)
    /\ m !! "Work>Programming"%string = Some (td_minutes 40)
    /\ m !! "Work"%string = None.
Proof.
  destruct (get_time_body_mapping (clock_at at_noon)
              (fun _ _ => Ok (mk_response (td_minutes 90)
                        [ (["Work"; "Programming"], td_minutes 50);
                          (["All"], td_minutes 1);
                          (["Work"; "Programming"], td_minutes 40) ]%string))
              (mk_outside 0 0 [] []) _ eq_refl) as (m & Hm & Hall & Hk).
  exists m. split; [exact Hm|]. split; [exact Hall|]. split.
  - rewrite Hk by discriminate. reflexivity.
  - rewrite Hk by discriminate. reflexivity.
Defined.

(** X6.  The body of [get_time] asks for the period that starts at
    04:00 UTC of the current UTC date and ends now, reads the clock
    once and counts one query, whatever the outcome; the start lies
    after the end exactly when the time of day is before 04:00. *)
Theorem get_time_body_period clock server (o : outside) :
  let n := clock (ticks o) in
  exists start,
    get_time_body clock server tt o
    = (match server (queries o) (start, n) with
       | Raise e => Raise e
       | Ok res => Ok (to_dict (res_cat_events res ++ [(["All"%string], res_duration res)]))
       end, mk_outside (S (ticks o)) (S (queries o)) (sent o) (errors o))
    /\ start mod us_per_day = time_offset
    /\ n - us_per_day < start - time_offset <= n
    /\ (n < start <-> n mod us_per_day < time_offset).
Proof.
  intros n. exists (replace_midnight n + time_offset). split; [|split; [|split]].
  - subst n. unfold get_time_body. cbn [queries tick].
    destruct (server (queries o) _); reflexivity.
  - unfold replace_midnight, time_offset, td_hours, us_per_day, us_per_second.
    Z.to_euclidean_division_equations. lia.
  - unfold replace_midnight, time_offset, td_hours, us_per_day, us_per_second.
    Z.to_euclidean_division_equations. lia.
  - unfold replace_midnight, time_offset, td_hours, us_per_day, us_per_second.
    Z.to_euclidean_division_equations. lia.
Qed.

(** ** What [update] and [check] touch *)

Section effects.
Variable clock : nat -> datetime.
Variable server : nat -> datetime * datetime -> result response.

(** [get_time] sends and logs nothing; it either answers from the
    cache, or it has asked the server once and the time of the call is
    the new timestamp. *)
Lemma get_time_effect (w w' : World) r :
  get_time clock server w = (r, w') ->
  sent (snd w') = sent (snd w) /\ errors (snd w') = errors (snd w)
  /\ ((fst w' = fst w /\ queries (snd w') = queries (snd w)
       /\ r = Ok (TTLCache.cache (fst w)))
      \/ (queries (snd w') = S (queries (snd w))
          /\ TTLCache.last_update (fst w') = clock (ticks (snd w))
          /\ td_minutes 1 < clock (ticks (snd w)) - TTLCache.last_update (fst w))).
Proof.
  destruct w as [c o]. unfold get_time, TTLCache._cache_ttl. cbn [fst snd].
  destruct (Z.ltb_spec (td_minutes 1) (clock (ticks o) - TTLCache.last_update c))
    as [Hx|Hhit].
  - unfold get_time_body.
    match goal with |- context [server ?q ?p] => destruct (server q p) end;
      intros [= <- <-]; cbn; auto 10.
  - intros [= <- <-]. cbn. auto 10.
Qed.

Lemma lookup_time_effect (a : CategoryAlert) (w w' : World) r :
  lookup_time clock server a w = (r, w') ->
  sent (snd w') = sent (snd w) /\ errors (snd w') = errors (snd w)
  /\ ((fst w' = fst w /\ queries (snd w') = queries (snd w))
      \/ (queries (snd w') = S (queries (snd w))
          /\ TTLCache.last_update (fst w') = clock (ticks (snd w))
          /\ td_minutes 1 < clock (ticks (snd w)) - TTLCache.last_update (fst w))).
Proof.
  unfold lookup_time, bind, lift.
  destruct (get_time clock server w) as [[d|e] w1] eqn:Hg;
    intros [= _ <-];
    destruct (get_time_effect w w1 _ Hg) as (Hs & He & [(H1 & H2 & _)|H]); auto 10.
Qed.

(** [update] sends nothing; it asks the server at most once, and when
    it has, the timestamp of the cache is a reading of the clock taken
    more than a minute after the timestamp before. *)
Lemma update_effect (a : CategoryAlert) (w w' : World) r :
  update clock server a w = (r, w') ->
  sent (snd w') = sent (snd w)
  /\ ((fst w' = fst w /\ queries (snd w') = queries (snd w))
      \/ (queries (snd w') = S (queries (snd w))
          /\ exists k, TTLCache.last_update (fst w') = clock k
                       /\ td_minutes 1 < clock k - TTLCache.last_update (fst w))).
Proof.
  destruct (time_to_next_threshold clock a (fst w, tick (snd w))) as [[d|e] w2] eqn:Ht;
    destruct (ttnt_world clock a _ _ _ Ht) as (H1 & H2 & H3 & H4);
    destruct w as [c o]; cbn [fst snd tick queries sent errors] in *.
  - destruct (datetime_range_dec (last_check a + d)) as [Hr|Hr].
    + rewrite (update_unfold clock server a (c, o) w2 d Ht Hr). cbn [fst snd].
      destruct (last_check a + d <? clock (ticks o)).
      * destruct (lookup_time clock server a w2) as [[v|e] w3] eqn:Hq;
          destruct (lookup_time_effect a w2 w3 _ Hq) as (Hs & _ & Hc);
          intros [= _ <-]; cbn [fst snd push_error sent queries];
          (split; [congruence|]);
          (destruct Hc as [[Hf Hn]|(Hn & Hl & Hx)];
           [left; split; congruence
           |right; split; [congruence|]; exists (ticks (snd w2));
            rewrite <- H1; split; assumption]).
      * intros [= _ <-]. split; [congruence|]. left. split; congruence.
    + rewrite (update_out_of_range clock server a (c, o) w2 d Ht Hr).
      intros [= _ <-]. split; [congruence|]. left. split; congruence.
  - rewrite (update_raises clock server a (c, o) w2 e Ht).
    intros [= _ <-]. split; [congruence|]. left. split; congruence.
Qed.

End effects.

(** [check] leaves the cache, the counts of clock readings and
    queries and the error log alone; it adds no notification or one;
    it raises only what the notifier raised, and has then added
    none. *)
Lemma check_effect notifier (a : CategoryAlert) (w : World) :
  exists r a' new,
    check notifier a w
    = (r, (a', (fst w, mk_outside (ticks (snd w)) (queries (snd w))
                         (sent (snd w) ++ new) (errors (snd w)))))
    /\ ((r = Ok tt /\ new = [] /\ a' = a
         /\ forall t, In t (thresholds a) -> max_triggered a < t -> time_spent a < t)
        \/ (exists m, a' = set_max_triggered m a
                      /\ In m (thresholds a) /\ max_triggered a < m
                      /\ m <= time_spent a
                      /\ (forall t, In t (thresholds a) -> max_triggered a < t ->
                                    t <= time_spent a -> t <= m)
                      /\ ((r = Ok tt /\ new = [("Time spent"%string, reached_msg a m)])
                          \/ (exists e,
                                 r = Raise e /\ new = []
                                 /\ notifier (length (sent (snd w)))
                                      ("Time spent"%string, reached_msg a m)
                                    = Raise e)))).
Proof.
  destruct (check_spec notifier a w) as [(m & (Hin & Hlt & Hle) & Hmax & Heq)|[Hnone Heq]].
  - destruct (notifier (length (sent (snd w))) ("Time spent"%string, reached_msg a m))
      as [u|e] eqn:Hn.
    + exists (Ok tt), (set_max_triggered m a), [("Time spent"%string, reached_msg a m)].
      split; [rewrite Heq; reflexivity|]. right. exists m.
      repeat (split; [assumption || reflexivity|]).
      split; [intros t H1 H2 H3; apply Hmax; tauto|]. left. split; reflexivity.
    + exists (Raise e), (set_max_triggered m a), [].
      split; [rewrite Heq; destruct w as [c [t q sn er]]; cbn; rewrite app_nil_r;
              reflexivity|].
      right. exists m.
      repeat (split; [assumption || reflexivity|]).
      split; [intros t H1 H2 H3; apply Hmax; tauto|]. right. exists e.
      split; [reflexivity|]. split; [reflexivity|exact Hn].
  - exists (Ok tt), a, []. split.
    + rewrite Heq. destruct w as [c [t q sn er]]. cbn. rewrite app_nil_r. reflexivity.
    + left. split; [reflexivity|]. split; [reflexivity|]. split; [reflexivity|].
      intros t Ht Hlt.
      destruct (Z.lt_ge_cases (time_spent a) t) as [H|H]; [exact H|].
      exfalso. apply (Hnone t). split; [exact Ht|]. split; [exact Hlt|lia].
Qed.

(** X7.  [update] never adds a notification and changes no field of
    the alert but [time_spent] and [last_check].  [check] changes no
    field but [max_triggered] and leaves the cache, the clock, the
    count of queries and the error log alone; when it raises, the
    exception is the one that the notifier raised for its one
    notification, no notification has been added, and [max_triggered]
    has gone up all the same. *)
Theorem update_check_frame clock server notifier (a : CategoryAlert) (w : World) :
  (forall r w', update clock server a w = (r, w') ->
     sent (snd w') = sent (snd w)
     /\ forall a', r = Ok a' ->
          category a' = category a /\ label a' = label a
          /\ thresholds a' = thresholds a /\ max_triggered a' = max_triggered a)
  /\ (exists r a' w',
        check notifier a w = (r, (a', w'))
        /\ category a' = category a /\ label a' = label a
        /\ thresholds a' = thresholds a /\ time_spent a' = time_spent a
        /\ last_check a' = last_check a
        /\ fst w' = fst w /\ ticks (snd w') = ticks (snd w)
        /\ queries (snd w') = queries (snd w) /\ errors (snd w') = errors (snd w)
        /\ forall e, r = Raise e ->
             sent (snd w') = sent (snd w)
             /\ max_triggered a < max_triggered a'
             /\ exists n, notifier (length (sent (snd w))) n = Raise e).
Proof.
  split.
  - intros r w' Hu. split; [apply (update_effect clock server a w w' r Hu)|].
    intros a' ->.
    destruct (time_to_next_threshold clock a (fst w, tick (snd w))) as [[d|e] w2] eqn:Ht.
    + destruct (datetime_range_dec (last_check a + d)) as [Hr|Hr].
      * rewrite (update_unfold clock server a w w2 d Ht Hr) in Hu.
        destruct (last_check a + d <? clock (ticks (snd w))).
        -- destruct (lookup_time clock server a w2) as [[v|e] w3];
             injection Hu as <- _; repeat split; reflexivity.
        -- injection Hu as <- _. repeat split; reflexivity.
      * rewrite (update_out_of_range clock server a w w2 d Ht Hr) in Hu. discriminate.
    + rewrite (update_raises clock server a w w2 e Ht) in Hu. discriminate.
  - destruct (check_effect notifier a w) as (r & a' & new & Heq & Hcase).
    eexists r, a', _. split; [exact Heq|]. cbn [fst snd ticks queries errors sent].
    destruct Hcase as [(-> & -> & -> & _)|(m & -> & _ & Hlt & _ & _ & Hr)].
    + repeat (split; [reflexivity|]). intros e [=].
    + repeat (split; [reflexivity|]). intros e ->.
      destruct Hr as [[[=] _]|(e' & [= <-] & -> & Hn)].
      split; [apply app_nil_r|]. split; [exact Hlt|]. eexists. exact Hn.
Qed.

(** X8.  A second [check] right after a first one does nothing, also
    when the first one raised: it returns, adds no notification and
    leaves the alert and the world as the first one left them. *)
Theorem check_twice notifier (a a1 : CategoryAlert) (w w1 : World) r :
  check notifier a w = (r, (a1, w1)) ->
  check notifier a1 w1 = (Ok tt, (a1, w1)).
Proof.
  intros H1.
  destruct (check_effect notifier a w) as (r' & a' & new & Heq & Hcase).
  rewrite Heq in H1. injection H1 as -> -> <-.
  destruct (check_spec notifier a1
              (fst w, mk_outside (ticks (snd w)) (queries (snd w))
                        (sent (snd w) ++ new) (errors (snd w))))
    as [(m2 & (Hin2 & Hlt2 & Hle2) & _ & _)|[_ Heq2]]; [exfalso|exact Heq2].
  destruct Hcase as [(_ & _ & -> & Hnone)|(m & -> & Hin & Hlt & Hle & Hmax & _)].
  - specialize (Hnone m2 Hin2 Hlt2). lia.
  - cbn [thresholds max_triggered time_spent set_max_triggered] in *.
    specialize (Hmax m2 Hin2 ltac:(lia) Hle2). lia.
Qed.

(** After the notification for 30 minutes, and after the notifier has
    raised on it. *)
Lemma check_twice_witness :
  check notifier_down
    (mk_alert "Twitter" "Twitter" [td_minutes 15; td_minutes 30; td_hours 1]
       (td_minutes 30) (td_minutes 45) epoch)
    world0
  = (Ok tt,
     (mk_alert "Twitter" "Twitter" [td_minutes 15; td_minutes 30; td_hours 1]
        (td_minutes 30) (td_minutes 45) epoch,
      world0)).
Proof.
  apply (check_twice notifier_down
           (mk_alert "Twitter" "Twitter" [td_minutes 15; td_minutes 30; td_hours 1]
              0 (td_minutes 45) epoch)
           _ world0 world0 (Raise (Upstream "no notification service"))).
  vm_compute. reflexivity.
Defined.

(** ** Notifications over the life of an alert *)

(** Raising the high-water mark to a threshold above it leaves fewer
    thresholds untriggered. *)
Lemma untriggered_shrinks (l : list timedelta) (mt m : timedelta) :
  mt < m ->
  (length (List.filter (fun t => (m <? t)%Z) l)
   <= length (List.filter (fun t => (mt <? t)%Z) l))%nat
  /\ (In m l ->
      (length (List.filter (fun t => (m <? t)%Z) l)
       < length (List.filter (fun t => (mt <? t)%Z) l))%nat).
Proof.
  intros Hlt. induction l as [|x l [IH1 IH2]]; [split; [cbn; lia|intros []]|].
  cbn [List.filter].
  destruct (Z.ltb_spec m x) as [Hmx|Hmx], (Z.ltb_spec mt x) as [Htx|Htx];
    cbn [length]; (split; [lia|]); intros [->|Hin]; try lia;
    specialize (IH2 Hin); lia.
Qed.

(** One call, whether it returns or raises, adds at most as many
    notifications as it takes thresholds off the untriggered ones. *)
Lemma do_call_sent clock server notifier (c : call) (a a1 : CategoryAlert)
  (w w1 : World) r :
  do_call clock server notifier c a w = (r, (a1, w1)) ->
  exists new,
    sent (snd w1) = sent (snd w) ++ new
    /\ (length new + length (thresholds_untriggered a1)
        <= length (thresholds_untriggered a))%nat.
Proof.
  destruct c; cbn [do_call]; intros H.
  - exists []. rewrite app_nil_r.
    destruct (update clock server a w) as [[a2|e] w2] eqn:Hu; injection H as _ <- <-.
    + split; [apply (update_effect clock server a w w2 _ Hu)|].
      destruct (update_keeps clock server a a2 w w2 Hu) as [Ht Hm].
      unfold thresholds_untriggered. rewrite Ht, Hm. cbn. lia.
    + split; [apply (update_effect clock server a w w2 _ Hu)|]. cbn. lia.
  - destruct (check_effect notifier a w) as (r' & a' & new & Heq & Hcase).
    rewrite Heq in H. injection H as _ <- <-. exists new. split; [reflexivity|].
    destruct Hcase as [(_ & -> & -> & _)|(m & -> & Hin & Hlt & _ & _ & Hr)];
      [cbn; lia|].
    unfold thresholds_untriggered, set_max_triggered.
    cbn [length thresholds max_triggered].
    destruct (untriggered_shrinks (thresholds a) (max_triggered a) m Hlt) as [_ H].
    specialize (H Hin).
    destruct Hr as [[_ ->]|(e & _ & -> & _)]; cbn [length Nat.add] in *;
      [exact H|apply Nat.lt_le_incl; exact H].
Qed.

(** X9.  Over any run of [update] and [check] calls on an alert,
    whatever the clock, the server and the notifier do and however the
    run ends, the notifications are added behind those that were there
    before, and there are at most as many of them as the alert had
    untriggered thresholds at the start: none at all once
    [max_triggered] has reached the greatest threshold. *)
Theorem run_notifications_bounded clock server notifier (cs : list call)
  (a : CategoryAlert) (w : World) :
  exists new,
    sent (snd (snd (run clock server notifier cs a w))) = sent (snd w) ++ new
    /\ (length new <= length (thresholds_untriggered a))%nat.
Proof.
  revert a w. induction cs as [|c cs IH]; intros a w.
  - exists []. cbn. rewrite app_nil_r. split; [reflexivity|lia].
  - cbn [run].
    destruct (do_call clock server notifier c a w) as [r [a1 w1]] eqn:Hc.
    destruct (do_call_sent clock server notifier c a a1 w w1 _ Hc) as (new1 & Hs1 & Hb1).
    destruct r as [u|e].
    + destruct (IH a1 w1) as (new2 & Hs2 & Hb2).
      exists (new1 ++ new2). rewrite Hs2, Hs1, app_assoc.
      split; [reflexivity|]. rewrite length_app.
      eapply Nat.le_trans; [apply Nat.add_le_mono_l; exact Hb2 | exact Hb1].
    + exists new1. cbn [snd]. split; [exact Hs1|].
      eapply Nat.le_trans; [apply Nat.le_add_r|exact Hb1].
Qed.

(** ** Queries within one minute *)

Section query_rate.
Variable clock : nat -> datetime.
Variable server : nat -> datetime * datetime -> result response.
Variable notifier : nat -> string * string -> result unit.
Variable lo : datetime.
Hypothesis clock_span : forall k, lo <= clock k <= lo + td_minutes 1.

(** With the clock held in a span of one minute: nothing has been
    asked since the count was [q0], or one query has been made and the
    timestamp of the cache lies in the span. *)
Lemma update_rate (a : CategoryAlert) (w w' : World) r (q0 : nat) :
  update clock server a w = (r, w') ->
  queries (snd w) = q0
  \/ (queries (snd w) = S q0 /\ lo <= TTLCache.last_update (fst w)) ->
  queries (snd w') = q0
  \/ (queries (snd w') = S q0 /\ lo <= TTLCache.last_update (fst w')).
Proof.
  intros Hu Hinv.
  destruct (update_effect clock server a w w' r Hu)
    as (_ & [[Hf Hq]|(Hq & k & Hl & Hx)]).
  - rewrite Hf, Hq. exact Hinv.
  - pose proof (clock_span k) as Hk. destruct Hinv as [H0|[H1 Hlo]].
    + right. split; [lia|]. rewrite Hl. lia.
    + exfalso. lia.
Qed.

Lemma check_rate (a : CategoryAlert) (w w' : World) r (q0 : nat) :
  check_returned notifier a w = (r, w') ->
  queries (snd w) = q0
  \/ (queries (snd w) = S q0 /\ lo <= TTLCache.last_update (fst w)) ->
  queries (snd w') = q0
  \/ (queries (snd w') = S q0 /\ lo <= TTLCache.last_update (fst w')).
Proof.
  intros Hc Hinv. unfold check_returned in Hc.
  destruct (check_effect notifier a w) as (r' & a' & new & Heq & _).
  rewrite Heq in Hc. destruct r'; injection Hc as _ <-; exact Hinv.
Qed.

Lemma alerts_pass_rate (alerts : list CategoryAlert) (q0 : nat) :
  forall (w w' : World) r,
    alerts_pass clock server notifier alerts w = (r, w') ->
    queries (snd w) = q0
    \/ (queries (snd w) = S q0 /\ lo <= TTLCache.last_update (fst w)) ->
    queries (snd w') = q0
    \/ (queries (snd w') = S q0 /\ lo <= TTLCache.last_update (fst w')).
Proof.
  induction alerts as [|a rest IH]; intros w w' r; cbn [alerts_pass].
  - intros [= _ <-] Hinv. exact Hinv.
  - unfold bind at 1.
    destruct (update clock server a w) as [[a1|e] w1] eqn:Hu.
    + unfold bind at 1.
      destruct (check_returned notifier a1 w1) as [[a2|e] w2] eqn:Hc.
      * unfold bind at 1.
        destruct (alerts_pass clock server notifier rest w2) as [[rest'|e] w3] eqn:Hp;
          intros [= _ <-] Hinv;
          apply (IH w2 w3 _ Hp), (check_rate a1 w1 w2 _ q0 Hc),
                (update_rate a w w1 _ q0 Hu), Hinv.
      * intros [= _ <-] Hinv.
        apply (check_rate a1 w1 w2 _ q0 Hc), (update_rate a w w1 _ q0 Hu), Hinv.
    + intros [= _ <-] Hinv. apply (update_rate a w w1 _ q0 Hu), Hinv.
Qed.

End query_rate.

(** X10.  While every reading of the clock lies in one span of a
    minute, one pass of the loop of [threshold_alerts] over any list
    of alerts asks the server at most once, whatever the state of the
    cache before and whether the pass ends or raises. *)
Theorem alerts_pass_one_query clock server notifier lo
  (alerts : list CategoryAlert) (w : World) :
  (forall k, lo <= clock k <= lo + td_minutes 1) ->
  (queries (snd (snd (alerts_pass clock server notifier alerts w)))
   <= S (queries (snd w)))%nat.
Proof.
  intros Hspan.
  destruct (alerts_pass clock server notifier alerts w) as [r w'] eqn:Hp.
  destruct (alerts_pass_rate clock server notifier lo Hspan alerts (queries (snd w))
              w w' r Hp)
    as [H|[H _]]; [left; reflexivity | |]; cbn [snd]; lia.
Qed.

Lemma alerts_pass_one_query_witness :
  Nat.le
    (queries (snd (snd (alerts_pass (clock_at at_noon) (server_work (td_minutes 20))
                          notifier_ok threshold_alerts_init world0))))
    1%nat.
Proof.
  apply (alerts_pass_one_query (clock_at at_noon) (server_work (td_minutes 20))
           notifier_ok at_noon threshold_alerts_init world0).
  intros k. unfold clock_at. vm_compute. split; discriminate.
Defined.

(** ** [checkin] *)

(** The comprehension over the keys returns the values of all keys, or
    raises the KeyError of the first key that the mapping lacks. *)
Lemma subscripts_some (m : dict) (keys : list string) :
  (exists vs, subscripts (Some m) keys = Ok vs
              /\ Forall2 (fun k v => m !! k = Some v) keys vs)
  \/ (exists k, subscripts (Some m) keys = Raise (KeyError k)
                /\ In k keys /\ m !! k = None).
Proof.
  induction keys as [|k keys IH]; cbn [subscripts subscript].
  - left. exists []. split; [reflexivity|constructor].
  - destruct (m !! k) as [v|] eqn:Hk.
    + destruct IH as [(vs & -> & Hall)|(k' & -> & Hin & Hnone)].
      * left. exists (v :: vs). split; [reflexivity|]. constructor; assumption.
      * right. exists k'. split; [reflexivity|]. split; [right; exact Hin|exact Hnone].
    + right. exists k. split; [reflexivity|]. split; [left; reflexivity|exact Hk].
Qed.

(** The order of the summary: no later pair has a greater duration. *)
Lemma insert_by_time_perm x (l : list (string * timedelta)) :
  Permutation (insert_by_time x l) (x :: l).
Proof.
  induction l as [|y l IH]; cbn [insert_by_time]; [reflexivity|].
  destruct (snd y <? snd x); [reflexivity|].
  rewrite IH. apply perm_swap.
Qed.

Lemma insert_by_time_sorted x (l : list (string * timedelta)) :
  StronglySorted (fun p q => snd q <= snd p) l ->
  StronglySorted (fun p q => snd q <= snd p) (insert_by_time x l).
Proof.
  induction 1 as [|y l Hs IH Hall]; cbn [insert_by_time].
  - constructor; constructor.
  - match goal with |- context [if ?b then _ else _] => destruct b eqn:Hb end.
    + apply Z.ltb_lt in Hb.
      constructor; [constructor; assumption|].
      constructor; [apply Z.lt_le_incl; exact Hb|].
      eapply Forall_impl; [exact Hall|]. cbn. intros q Hq.
      eapply Z.le_trans; [exact Hq|apply Z.lt_le_incl; exact Hb].
    + apply Z.ltb_ge in Hb.
      constructor; [exact IH|].
      rewrite (insert_by_time_perm x l). constructor; [exact Hb|exact Hall].
Qed.

Lemma sorted_by_time_spec (l : list (string * timedelta)) :
  Permutation (sorted_by_time l) l
  /\ StronglySorted (fun p q => snd q <= snd p) (sorted_by_time l).
Proof.
  unfold sorted_by_time.
  assert (H : forall acc,
             StronglySorted (fun p q => snd q <= snd p) acc ->
             Permutation (fold_left (fun acc x => insert_by_time x acc) l acc) (acc ++ l)
             /\ StronglySorted (fun p q => snd q <= snd p)
                  (fold_left (fun acc x => insert_by_time x acc) l acc)).
  { induction l as [|x l IH]; intros acc Hacc; cbn [fold_left].
    - rewrite app_nil_r. split; [reflexivity|exact Hacc].
    - destruct (IH (insert_by_time x acc) (insert_by_time_sorted x acc Hacc))
        as [Hp Hs].
      split; [|exact Hs]. rewrite Hp, insert_by_time_perm.
      rewrite <- Permutation_middle. reflexivity. }
  destruct (H [] ltac:(constructor)) as [Hp Hs]. split; [exact Hp|exact Hs].
Qed.

Section checkin_properties.
Variable clock : nat -> datetime.
Variable server : nat -> datetime * datetime -> result response.
Variable notifier : nat -> string * string -> result unit.

(** [checkin] after its call of [get_time]. *)
Lemma checkin_unfold (w w1 : World) d :
  get_time clock server w = (Ok d, w1) ->
  checkin clock server notifier w
  = match subscripts d top_categories with
    | Ok time_spent => notify notifier "Checkin" (checkin_msg time_spent) w1
    | Raise e => (Raise e, w1)
    end.
Proof.
  intros Hg. unfold checkin, bind, lift. rewrite Hg.
  destruct (subscripts d top_categories); reflexivity.
Qed.

(** [notify] by the answer of the notifier. *)
Lemma notify_outcome title msg (w : World) :
  exists r w',
    notify notifier title msg w = (r, w')
    /\ fst w' = fst w /\ ticks (snd w') = ticks (snd w)
    /\ queries (snd w') = queries (snd w) /\ errors (snd w') = errors (snd w)
    /\ match notifier (length (sent (snd w))) (title, msg) with
       | Ok _ => r = Ok tt /\ sent (snd w') = sent (snd w) ++ [(title, msg)]
       | Raise e => r = Raise e /\ sent (snd w') = sent (snd w)
       end.
Proof.
  destruct w as [c o]. unfold notify. cbn [fst snd].
  destruct (notifier (length (sent o)) (title, msg)) as [u|e];
    eexists _, _; (split; [reflexivity|]); cbn; repeat split; reflexivity.
Qed.

End checkin_properties.

(** The key whose subscript raises is the first one that the mapping
    lacks. *)
Lemma subscripts_missing (m : dict) (keys : list string) c :
  In c keys -> m !! c = None ->
  exists pre k post,
    keys = pre ++ k :: post
    /\ Forall (fun c => m !! c <> None) pre
    /\ m !! k = None
    /\ subscripts (Some m) keys = Raise (KeyError k).
Proof.
  induction keys as [|k keys IH]; intros Hin Hnone; [destruct Hin|].
  cbn [subscripts subscript].
  destruct (m !! k) as [v|] eqn:Hk.
  - destruct Hin as [->|Hin]; [congruence|].
    destruct (IH Hin Hnone) as (pre & k' & post & -> & Hpre & Hk' & ->).
    exists (k :: pre), k', post. split; [reflexivity|].
    split; [constructor; [congruence|exact Hpre]|]. split; [exact Hk'|reflexivity].
  - exists [], k, keys. split; [reflexivity|]. split; [constructor|].
    split; [exact Hk|reflexivity].
Qed.

Lemma subscripts_ok (m : dict) (keys : list string) vs :
  Forall2 (fun k v => m !! k = Some v) keys vs ->
  subscripts (Some m) keys = Ok vs.
Proof.
  induction 1 as [|k v keys vs Hk _ IH]; cbn [subscripts subscript];
    [reflexivity|].
  rewrite Hk, IH. reflexivity.
Qed.

(** Stability of the order of the summary: the pairs of one duration
    keep the order in which they came. *)
Lemma filter_none {A} (f : A -> bool) (l : list A) :
  Forall (fun a => f a = false) l -> List.filter f l = [].
Proof.
  induction 1 as [|a l Ha _ IH]; cbn [List.filter]; [reflexivity|].
  rewrite Ha. exact IH.
Qed.

Lemma insert_by_time_stable d x (l : list (string * timedelta)) :
  StronglySorted (fun p q => snd q <= snd p) l ->
  List.filter (fun p => snd p =? d) (insert_by_time x l)
  = List.filter (fun p => snd p =? d) l ++ (if snd x =? d then [x] else []).
Proof.
  unfold timedelta in *.
  induction 1 as [|y l Hs IH Hall]; cbn [insert_by_time].
  - cbn [List.filter app]. cbv beta. destruct (snd x =? d); reflexivity.
  - unfold timedelta in *.
    match goal with |- context [if ?b then _ else _] => destruct b eqn:Hb end.
    + apply Z.ltb_lt in Hb.
      change (List.filter (fun p => snd p =? d) (x :: y :: l))
        with (if snd x =? d
              then x :: List.filter (fun p => snd p =? d) (y :: l)
              else List.filter (fun p => snd p =? d) (y :: l)).
      destruct (Z.eqb_spec (snd x) d) as [Hx|Hx]; [|rewrite app_nil_r; reflexivity].
      rewrite (filter_none (fun p => snd p =? d) (y :: l)); [reflexivity|].
      constructor.
      * apply Z.eqb_neq. lia.
      * eapply Forall_impl; [exact Hall|]. cbn. intros q Hq.
        apply Z.eqb_neq. lia.
    + change (List.filter (fun p => snd p =? d) (y :: insert_by_time x l))
        with (if snd y =? d
              then y :: List.filter (fun p => snd p =? d) (insert_by_time x l)
              else List.filter (fun p => snd p =? d) (insert_by_time x l)).
      change (List.filter (fun p => snd p =? d) (y :: l))
        with (if snd y =? d
              then y :: List.filter (fun p => snd p =? d) l
              else List.filter (fun p => snd p =? d) l).
      rewrite IH. destruct (snd y =? d); reflexivity.
Qed.

Lemma sorted_by_time_stable d (l : list (string * timedelta)) :
  List.filter (fun p => snd p =? d) (sorted_by_time l)
  = List.filter (fun p => snd p =? d) l.
Proof.
  unfold sorted_by_time.
  assert (H : forall acc,
             StronglySorted (fun p q => snd q <= snd p) acc ->
             List.filter (fun p => snd p =? d)
               (fold_left (fun acc x => insert_by_time x acc) l acc)
             = List.filter (fun p => snd p =? d) acc
               ++ List.filter (fun p => snd p =? d) l).
  { induction l as [|x l IH]; intros acc Hacc; cbn [fold_left].
    - cbn [List.filter]. rewrite app_nil_r. reflexivity.
    - rewrite (IH _ (insert_by_time_sorted x acc Hacc)).
      rewrite (insert_by_time_stable d x acc Hacc), <- app_assoc.
      f_equal. unfold timedelta in *. cbn [List.filter]. cbv beta.
      destruct (snd x =? d); reflexivity. }
  apply (H [] ltac:(constructor)).
Qed.

(** X11.  When the mapping that [get_time] returns lacks one of All,
    Work, Twitter and Youtube, [checkin] raises the KeyError of the
    first of them that is missing and sends no notification; when
    [get_time] returns None (the cache after a failed first query), it
    raises TypeError. *)
Theorem checkin_missing_category clock server notifier (w w1 : World) d :
  get_time clock server w = (Ok d, w1) ->
  (d = None \/ exists m c, d = Some m /\ In c top_categories /\ m !! c = None) ->
  exists e,
    checkin clock server notifier w = (Raise e, w1)
    /\ sent (snd w1) = sent (snd w)
    /\ match d with
       | None => e = TypeError
       | Some m =>
           exists pre k post,
             top_categories = pre ++ k :: post
             /\ Forall (fun c => m !! c <> None) pre
             /\ m !! k = None
             /\ e = KeyError k
       end.
Proof.
  intros Hg Hmiss.
  destruct (get_time_effect clock server w w1 _ Hg) as (Hsent & _).
  rewrite (checkin_unfold clock server notifier w w1 d Hg).
  destruct Hmiss as [->|(m & c & -> & Hin & Hnone)].
  - exists TypeError. split; [reflexivity|]. split; [exact Hsent|reflexivity].
  - destruct (subscripts_missing m top_categories c Hin Hnone)
      as (pre & k & post & Hsplit & Hpre & Hk & ->).
    exists (KeyError k). split; [reflexivity|]. split; [exact Hsent|].
    exists pre, k, post. auto.
Qed.

(** The server knows Work only: the subscript of Twitter raises. *)
Lemma checkin_missing_category_witness :
  exists e,
    checkin (clock_at at_noon) (server_work td1h) notifier_ok world0
    = (Raise e, (TTLCache.mk_attrs at_noon
                   (Some (to_dict [(["Work"], td1h); (["All"], td1h)]%string)),
                 mk_outside 2 1 [] []))
    /\ exists pre k post,
         top_categories = pre ++ k :: post
         /\ Forall (fun c => to_dict [(["Work"], td1h); (["All"], td1h)]%string !! c
                             <> None) pre
         /\ to_dict [(["Work"], td1h); (["All"], td1h)]%string !! k = None
         /\ e = KeyError k.
Proof.
  destruct (checkin_missing_category (clock_at at_noon) (server_work td1h) notifier_ok
              world0
              (TTLCache.mk_attrs at_noon
                 (Some (to_dict [(["Work"], td1h); (["All"], td1h)]%string)),
               mk_outside 2 1 [] [])
              (Some (to_dict [(["Work"], td1h); (["All"], td1h)]%string)))
    as (e & He & _ & Hk).
  - vm_compute. reflexivity.
  - right. exists (to_dict [(["Work"], td1h); (["All"], td1h)]%string), "Twitter"%string.
    split; [reflexivity|]. split; [right; right; left; reflexivity|].
    vm_compute. reflexivity.
  - exists e. split; [exact He|exact Hk].
Defined.

(** X12.  When the mapping of [get_time] has all of All, Work, Twitter
    and Youtube, [checkin] hands the notifier one notification titled
    Checkin.  Its message gives the time of All and then one line for
    each of the four categories, by descending duration, categories of
    one duration in the order All, Work, Twitter, Youtube.  When the
    notifier shows it, it is the one notification added to those that
    were there when [checkin] was called, and [checkin] returns; when
    the notifier raises, none is added and the exception leaves
    [checkin].  Nothing else changes after [get_time]. *)
Theorem checkin_summary clock server notifier (w w1 : World) (m : dict) vs :
  get_time clock server w = (Ok (Some m), w1) ->
  Forall2 (fun c v => m !! c = Some v) top_categories vs ->
  exists total lines r w',
    checkin clock server notifier w = (r, w')
    /\ m !! "All"%string = Some total
    /\ Permutation lines (combine top_categories vs)
    /\ StronglySorted (fun p q => snd q <= snd p) lines
    /\ (forall d, List.filter (fun p => snd p =? d) lines
                  = List.filter (fun p => snd p =? d) (combine top_categories vs))
    /\ fst w' = fst w1 /\ ticks (snd w') = ticks (snd w1)
    /\ queries (snd w') = queries (snd w1) /\ errors (snd w') = errors (snd w1)
    /\ let n := ("Checkin",
                 "Time spent today: " +:+ to_hms total +:+ nl
                 +:+ "Categories:" +:+ nl
                 +:+ String.concat nl (map checkin_line lines))%string in
       match notifier (length (sent (snd w))) n with
       | Ok _ => r = Ok tt /\ sent (snd w') = sent (snd w) ++ [n]
       | Raise e => r = Raise e /\ sent (snd w') = sent (snd w)
       end.
Proof.
  intros Hg Hall.
  destruct (get_time_effect clock server w w1 _ Hg) as (Hsent & _).
  rewrite (checkin_unfold clock server notifier w w1 _ Hg), (subscripts_ok m _ _ Hall).
  destruct (sorted_by_time_spec (combine top_categories vs)) as [Hp Hs].
  destruct (notify_outcome notifier "Checkin" (checkin_msg vs) w1)
    as (r & w' & Hn & H1 & H2 & H3 & H4 & Hm).
  rewrite Hsent in Hm.
  exists (hd 0 vs), (sorted_by_time (combine top_categories vs)), r, w'.
  split; [exact Hn|].
  split; [inversion Hall as [|k v ks vs' Hk _ Hkeys Hvs]; subst; exact Hk|].
  split; [exact Hp|]. split; [exact Hs|].
  split; [intros d; apply sorted_by_time_stable|].
  split; [exact H1|]. split; [exact H2|]. split; [exact H3|]. split; [exact H4|].
  exact Hm.
Qed.

(** Two hours of Work and half an hour each of Twitter and Youtube. *)
Lemma checkin_summary_witness :
  exists total lines r w',
    checkin (clock_at at_noon) server_day notifier_ok world0 = (r, w')
    /\ total = td_hours 3
    /\ Permutation lines
         [ ("All", td_hours 3); ("Work", td_hours 2);
           ("Twitter", td_minutes 30); ("Youtube", td_minutes 30) ]%string
    /\ StronglySorted (fun p q => snd q <= snd p) lines
    /\ r = Ok tt
    /\ sent (snd w')
       = [("Checkin",
           "Time spent today: " +:+ to_hms total +:+ nl
           +:+ "Categories:" +:+ nl
           +:+ String.concat nl (map checkin_line lines))%string].
Proof.
  destruct (checkin_summary (clock_at at_noon) server_day notifier_ok world0
              (TTLCache.mk_attrs at_noon
                 (Some (to_dict [ (["Work"], td_hours 2); (["Twitter"], td_minutes 30);
                                  (["Youtube"], td_minutes 30); (["All"], td_hours 3) ]%string)),
               mk_outside 2 1 [] [])
              (to_dict [ (["Work"], td_hours 2); (["Twitter"], td_minutes 30);
                         (["Youtube"], td_minutes 30); (["All"], td_hours 3) ]%string)
              [td_hours 3; td_hours 2; td_minutes 30; td_minutes 30])
    as (total & lines & r & w' & Hc & Ht & Hp & Hs & _ & _ & _ & _ & _ & Hr & Hsent).
  - vm_compute. reflexivity.
  - repeat constructor.
  - exists total, lines, r, w'. split; [exact Hc|].
    split; [vm_compute in Ht; injection Ht as <-; reflexivity|].
    split; [exact Hp|]. split; [exact Hs|]. split; [exact Hr|exact Hsent].
Defined.

(** The summary of that day, in full. *)
Example checkin_day :
  checkin (clock_at at_noon) server_day notifier_ok world0
  = (Ok tt,
     (TTLCache.mk_attrs at_noon
        (Some (to_dict [ (["Work"], td_hours 2); (["Twitter"], td_minutes 30);
                         (["Youtube"], td_minutes 30); (["All"], td_hours 3) ]%string)),
      mk_outside 2 1
        [("Checkin",
          "Time spent today: 3h" +:+ nl +:+ "Categories:" +:+ nl
          +:+ " - All: 3h" +:+ nl +:+ " - Work: 2h" +:+ nl
          +:+ " - Twitter: 30m" +:+ nl +:+ " - Youtube: 30m")%string]
        []))
  /\ checkin (clock_at at_noon) server_day notifier_down world0
     = (Raise (Upstream "no notification service"),
        (TTLCache.mk_attrs at_noon
           (Some (to_dict [ (["Work"], td_hours 2); (["Twitter"], td_minutes 30);
                            (["Youtube"], td_minutes 30); (["All"], td_hours 3) ]%string)),
         mk_outside 2 1 [] [])).
Proof. split; vm_compute; reflexivity. Qed.

(** ** The hourly checkin *)

(** X13.  [checkin_thread] sleeps until the first whole hour that lies
    strictly after the reading of its clock: never zero, at most one
    hour, and a full hour when the reading is itself a whole hour. *)
Theorem sleep_time_next_hour (n : datetime) :
  0 < sleep_time n <= td_hours 1
  /\ (n + sleep_time n) mod td_hours 1 = 0
  /\ (forall h, n < h -> h mod td_hours 1 = 0 -> n + sleep_time n <= h)
  /\ (sleep_time n = td_hours 1 <-> n mod td_hours 1 = 0).
Proof.
  unfold sleep_time, replace_hour, td_hours, us_per_second.
  split; [|split; [|split]].
  - Z.to_euclidean_division_equations. lia.
  - Z.to_euclidean_division_equations. lia.
  - intros h Hlt Hh. Z.to_euclidean_division_equations. lia.
  - Z.to_euclidean_division_equations. lia.
Qed.

Section hourly.
Variable clock : nat -> datetime.
Variable server : nat -> datetime * datetime -> result response.
Variable notifier : nat -> string * string -> result unit.
Variable afk : nat -> result (list afk_event).

(** One turn, by the answer of the AFK bucket. *)
Lemma checkin_thread_turn_unfold (w : World) :
  checkin_thread_turn clock server notifier afk w
  = let n := clock (ticks (snd w)) in
    match afk (S (ticks (snd w))) with
    | Raise _ => (Ok (sleep_time n), (fst w, tick (snd w)))
    | Ok [] => (Ok (sleep_time n), (fst w, tick (snd w)))
    | Ok (event :: _) =>
        let w2 := (fst w, tick (tick (snd w))) in
        if ev_timestamp event + ev_duration event
           <? clock (S (ticks (snd w))) - td_minutes 5
        then (Ok (sleep_time n), w2)
        else if String.eqb (ev_status event) "not-afk"
        then match checkin clock server notifier w2 with
             | (Ok _, w3) => (Ok (sleep_time n), w3)
             | (Raise e, w3) => (Raise e, w3)
             end
        else (Ok (sleep_time n), w2)
    end.
Proof.
  destruct w as [c o].
  unfold checkin_thread_turn, get_active_status, try_except, bind, now, ret.
  cbn [fst snd ticks tick].
  destruct (afk (S (ticks o))) as [[|event rest]|e]; [reflexivity| |reflexivity].
  cbn [fst snd ticks tick].
  destruct (ev_timestamp event + ev_duration event <? clock (S (ticks o)) - td_minutes 5);
    [reflexivity|].
  destruct (String.eqb (ev_status event) "not-afk"); [|reflexivity].
  destruct (checkin clock server notifier _) as [[[]|e] w3]; reflexivity.
Qed.

End hourly.

(** X14.  A turn of [checkin_thread] asks the server, sends a
    notification, touches the cache of [get_time] or raises only when
    the AFK bucket answered, its latest event ended no more than five
    minutes before the clock reading that follows the sleep, and the
    status of that event is not-afk.  In every other case, also when
    the bucket raised, the turn only reads the clock and goes on. *)
Theorem checkin_thread_turn_gate clock server notifier afk (w w' : World) r :
  checkin_thread_turn clock server notifier afk w = (r, w') ->
  (r <> Ok (sleep_time (clock (ticks (snd w))))
   \/ sent (snd w') <> sent (snd w)
   \/ queries (snd w') <> queries (snd w)
   \/ errors (snd w') <> errors (snd w)
   \/ fst w' <> fst w) ->
  exists event rest,
    afk (S (ticks (snd w))) = Ok (event :: rest)
    /\ ev_status event = "not-afk"%string
    /\ clock (S (ticks (snd w))) - td_minutes 5
       <= ev_timestamp event + ev_duration event.
Proof.
  intros Ht Hobs. rewrite checkin_thread_turn_unfold in Ht. cbv zeta in Ht.
  assert (Hskip : forall o, (r, w') = (Ok (sleep_time (clock (ticks (snd w)))), (fst w, o)) ->
                            sent o = sent (snd w) -> queries o = queries (snd w) ->
                            errors o = errors (snd w) -> False).
  { intros o Heq Hs Hq He. injection Heq as -> ->. cbn [fst snd] in Hobs.
    rewrite Hs, Hq, He in Hobs.
    destruct Hobs as [H|[H|[H|[H|H]]]]; apply H; reflexivity. }
  destruct (afk (S (ticks (snd w)))) as [[|event rest]|e].
  - exfalso. apply (Hskip (tick (snd w))); [symmetry; exact Ht|reflexivity..].
  - destruct (Z.ltb_spec (ev_timestamp event + ev_duration event)
                (clock (S (ticks (snd w))) - td_minutes 5)) as [Hold|Hfresh].
    + exfalso. apply (Hskip (tick (tick (snd w)))); [symmetry; exact Ht|reflexivity..].
    + destruct (String.eqb_spec (ev_status event) "not-afk") as [Hst|Hst].
      * exists event, rest. split; [reflexivity|]. split; [exact Hst|exact Hfresh].
      * exfalso. apply (Hskip (tick (tick (snd w)))); [symmetry; exact Ht|reflexivity..].
  - exfalso. apply (Hskip (tick (snd w))); [symmetry; exact Ht|reflexivity..].
Qed.

(** An active user and a server that knows all four categories: the
    turn asks the server and sends the summary. *)
Lemma checkin_thread_turn_gate_witness :
  exists event rest,
    afk_active at_noon 1%nat = Ok (event :: rest)
    /\ ev_status event = "not-afk"%string
    /\ at_noon - td_minutes 5 <= ev_timestamp event + ev_duration event.
Proof.
  apply (checkin_thread_turn_gate (clock_at at_noon) server_day notifier_ok
           (afk_active at_noon) world0
           (snd (checkin_thread_turn (clock_at at_noon) server_day notifier_ok
                   (afk_active at_noon) world0))
           (fst (checkin_thread_turn (clock_at at_noon) server_day notifier_ok
                   (afk_active at_noon) world0))).
  - apply surjective_pairing.
  - right. right. left. vm_compute. discriminate.
Defined.

(** X15.  When the latest AFK event is fresh and says not-afk, and the
    mapping that [get_time] then returns lacks one of All, Work,
    Twitter and Youtube, the turn of [checkin_thread] raises KeyError:
    the exception is not caught, the loop of the thread ends, and no
    notification was sent. *)
Theorem checkin_thread_turn_key_error clock server notifier afk (w w1 : World)
  event rest m c :
  afk (S (ticks (snd w))) = Ok (event :: rest) ->
  ev_status event = "not-afk"%string ->
  clock (S (ticks (snd w))) - td_minutes 5 <= ev_timestamp event + ev_duration event ->
  get_time clock server (fst w, tick (tick (snd w))) = (Ok (Some m), w1) ->
  In c top_categories -> m !! c = None ->
  exists k,
    checkin_thread_turn clock server notifier afk w = (Raise (KeyError k), w1)
    /\ In k top_categories /\ m !! k = None
    /\ sent (snd w1) = sent (snd w).
Proof.
  intros Hafk Hst Hfresh Hg Hin Hnone.
  rewrite checkin_thread_turn_unfold. cbv zeta. rewrite Hafk.
  destruct (Z.ltb_spec (ev_timestamp event + ev_duration event)
              (clock (S (ticks (snd w))) - td_minutes 5)) as [Hold|_]; [lia|].
  rewrite Hst. cbn [String.eqb Ascii.eqb Bool.eqb].
  rewrite (checkin_unfold clock server notifier _ w1 _ Hg).
  destruct (subscripts_missing m top_categories c Hin Hnone)
    as (pre & k & post & Hsplit & _ & Hk & ->).
  exists k. split; [reflexivity|]. split; [|split; [exact Hk|]].
  - rewrite Hsplit. apply in_or_app. right. left. reflexivity.
  - destruct (get_time_effect clock server _ w1 _ Hg) as (Hsent & _). exact Hsent.
Qed.

(** An active user and a server that knows Work only. *)
Lemma checkin_thread_turn_key_error_witness :
  exists k,
    checkin_thread_turn (clock_at at_noon) (server_work td1h) notifier_ok
      (afk_active at_noon) world0
    = (Raise (KeyError k),
       (TTLCache.mk_attrs at_noon
          (Some (to_dict [(["Work"], td1h); (["All"], td1h)]%string)),
        mk_outside 4 1 [] []))
    /\ In k top_categories.
Proof.
  destruct (checkin_thread_turn_key_error (clock_at at_noon) (server_work td1h)
              notifier_ok (afk_active at_noon) world0
              (TTLCache.mk_attrs at_noon
                 (Some (to_dict [(["Work"], td1h); (["All"], td1h)]%string)),
               mk_outside 4 1 [] [])
              (mk_afk_event (at_noon - td_minutes 10) (td_minutes 8) "not-afk") []
              (to_dict [(["Work"], td1h); (["All"], td1h)]%string)
              "Youtube"%string)
    as (k & Hk & Hin & _).
  - reflexivity.
  - reflexivity.
  - vm_compute. discriminate.
  - vm_compute. reflexivity.
  - right. right. right. left. reflexivity.
  - vm_compute. reflexivity.
  - exists k. split; [exact Hk|exact Hin].
Defined.
